(** * DeployBot: the deployment routes and the Docker worker

  A shallow embedding of [routes/deployments.js] (the Express handlers of
  [/api/deployments]) and of [utils/docker.js] (clone, build, start,
  restart and stop of one deployment's container), followed by the
  properties of the orchestration pipeline: status sequence, failure
  propagation, cleanup, termination, the url convention and the
  repository-URL guard. *)

From Stdlib Require Import String Ascii List Bool Arith Lia.
From stdpp Require Import base option list strings gmap.

Import ListNotations.
Local Open Scope string_scope.
Local Open Scope list_scope.

(** ** JavaScript strings

  Strings are sequences of code units below 256; the line terminators
  U+2028 and U+2029 and the wide white-space characters are outside this
  alphabet. *)

Module Js.

Definition nl : string := String "010" "".

(** A line terminator: what [.] refuses to match. *)
Definition line_terminator (a : ascii) : bool :=
  (a =? "010")%char || (a =? "013")%char.

(** White space as [String.prototype.trim] sees it: TAB, LF, VT, FF, CR,
    SP and NBSP. *)
Definition white_space (a : ascii) : bool :=
  (a =? "009")%char || (a =? "010")%char || (a =? "011")%char ||
  (a =? "012")%char || (a =? "013")%char || (a =? " ")%char ||
  (a =? "160")%char.

Fixpoint trimStart (s : string) : string :=
  match s with
  | String a s' => if white_space a then trimStart s' else s
  | EmptyString => EmptyString
  end.

Fixpoint trimEnd (s : string) : string :=
  match s with
  | String a s' =>
      match trimEnd s' with
      | EmptyString => if white_space a then EmptyString else String a EmptyString
      | t => String a t
      end
  | EmptyString => EmptyString
  end.

Definition trim (s : string) : string := trimEnd (trimStart s).

(** [s.slice(0, n)] for [n >= 0]. *)
Definition slice0 (n : nat) (s : string) : string := substring 0 n s.

(** [xs.includes(s)] on an array of strings. *)
Definition includes (xs : list string) (s : string) : bool :=
  existsb (String.eqb s) xs.

(** [xs.find(p)]. *)
Definition find {A} (p : A -> bool) (xs : list A) : option A := List.find p xs.

(** Truthiness of a value that is a string or [undefined]. *)
Definition truthy (v : option string) : bool :=
  match v with
  | Some s => negb (String.eqb s "")
  | None => false
  end.

(** [v || dflt] where [v] is a string or [undefined]. *)
Definition or_default (v : option string) (dflt : string) : string :=
  match v with
  | Some s => if String.eqb s "" then dflt else s
  | None => dflt
  end.

(** The value of a decimal digit. *)
Definition digit (a : ascii) : option N :=
  let n := N_of_ascii a in
  if ((48 <=? n) && (n <=? 57))%N then Some (n - 48)%N else None.

(** The number that a run of decimal digits writes, after [acc]. *)
Fixpoint decimal (s : string) (acc : N) : option N :=
  match s with
  | EmptyString => Some acc
  | String a s' =>
      match digit a with
      | Some k => decimal s' (10 * acc + k)%N
      | None => None
      end
  end.

(** An array index: a property key that is the canonical decimal form of
    an integer below 2^32 - 1 (no sign, no leading zero). *)
Definition array_index (key : string) : option N :=
  match key with
  | EmptyString => None
  | String "0" EmptyString => Some 0%N
  | String "0" _ => None
  | _ =>
      match decimal key 0 with
      | Some n => if (n <? 4294967295)%N then Some n else None
      | None => None
      end
  end.

(** Puts the property [kv], whose key is the array index [n], at its place
    among properties sorted by index. *)
Fixpoint place (n : N) (kv : string * string)
    (sorted : list (N * (string * string))) : list (N * (string * string)) :=
  match sorted with
  | [] => [(n, kv)]
  | (m, kv') :: rest =>
      if (n <? m)%N then (n, kv) :: sorted else (m, kv') :: place n kv rest
  end.

(** The properties of an object whose keys are array indices, in
    ascending order of index. *)
Definition indexed (o : list (string * string)) : list (N * (string * string)) :=
  fold_left
    (fun acc kv =>
       match array_index (fst kv) with
       | Some n => place n kv acc
       | None => acc
       end)
    o [].

(** The other properties, in the order of their creation. *)
Definition named (o : list (string * string)) : list (string * string) :=
  List.filter
    (fun kv => match array_index (fst kv) with Some _ => false | None => true end)
    o.

(** [Object.entries(o)] on an object given by its own properties in the
    order of their creation, each key once: the array indices come first,
    in ascending order, then the other keys in creation order. *)
Definition entries (o : list (string * string)) : list (string * string) :=
  map snd (indexed o) ++ named o.

End Js.

(** ** Regular expressions

  The fragment of the JavaScript pattern language that the repository-URL
  guard uses: literal characters, [.], concatenation and [+]. Matching is
  by derivatives; [search] is the unanchored test that [String.match]
  performs with a non-global pattern. *)

Module Regex.

Inductive regex : Type :=
| Void
| Eps
| Chr (a : ascii)
| Dot
| Alt (r1 r2 : regex)
| Cat (r1 r2 : regex)
| Star (r : regex).

(** [r+] *)
Definition Plus (r : regex) : regex := Cat r (Star r).

(** A run of literal characters. *)
Fixpoint lit (s : string) : regex :=
  match s with
  | EmptyString => Eps
  | String a s' => Cat (Chr a) (lit s')
  end.

Fixpoint nullable (r : regex) : bool :=
  match r with
  | Void | Chr _ | Dot => false
  | Eps | Star _ => true
  | Alt r1 r2 => nullable r1 || nullable r2
  | Cat r1 r2 => nullable r1 && nullable r2
  end.

Fixpoint deriv (a : ascii) (r : regex) : regex :=
  match r with
  | Void | Eps => Void
  | Chr b => if (a =? b)%char then Eps else Void
  | Dot => if Js.line_terminator a then Void else Eps
  | Alt r1 r2 => Alt (deriv a r1) (deriv a r2)
  | Cat r1 r2 =>
      if nullable r1
      then Alt (Cat (deriv a r1) r2) (deriv a r2)
      else Cat (deriv a r1) r2
  | Star r1 => Cat (deriv a r1) (Star r1)
  end.

(** Does some prefix of [s] match [r]? *)
Fixpoint match_here (r : regex) (s : string) : bool :=
  nullable r ||
  match s with
  | EmptyString => false
  | String a s' => match_here (deriv a r) s'
  end.

(** Does [r] match somewhere in [s]? This is whether [s.match(r)] is
    non-null. *)
Fixpoint search (r : regex) (s : string) : bool :=
  match_here r s ||
  match s with
  | EmptyString => false
  | String _ s' => search r s'
  end.

(** The words of a pattern. *)
Inductive lang : regex -> string -> Prop :=
| lang_eps : lang Eps ""
| lang_chr a : lang (Chr a) (String a "")
| lang_dot a : Js.line_terminator a = false -> lang Dot (String a "")
| lang_alt_l r1 r2 s : lang r1 s -> lang (Alt r1 r2) s
| lang_alt_r r1 r2 s : lang r2 s -> lang (Alt r1 r2) s
| lang_cat r1 r2 s1 s2 : lang r1 s1 -> lang r2 s2 -> lang (Cat r1 r2) (s1 +:+ s2)
| lang_star_nil r : lang (Star r) ""
| lang_star_app r s1 s2 : lang r s1 -> lang (Star r) s2 -> lang (Star r) (s1 +:+ s2).

End Regex.

(** ** Data model *)

(** A JavaScript exception; only its kind and message are observed. *)
Inductive exn : Type :=
| Error (msg : string)
| TypeError (msg : string).

Definition message (e : exn) : string :=
  match e with
  | Error m => m
  | TypeError m => m
  end.

(** The values of [deployment.status] that the routes and the worker
    assign. *)
Inductive Status : Type :=
| initializing
| cloning
| building
| starting
| running
| restarting
| failed.

#[global] Instance Status_eq_dec : EqDecision Status.
Proof. solve_decision. Defined.

(** Modelled from the spec: the Deployment schema ([models/Deployment]) is
    not among the sources. The fields are those the routes and the worker
    read and write; [envVars] is a mapping of string keys to string values
    in insertion order, absent when the creation request had none;
    [updatedAt] is the timestamp that the store maintains. *)
Record Deployment : Type := mkDeployment {
  _id : string;
  user : string;
  name : option string;
  repoUrl : string;
  branch : string;
  envVars : option (list (string * string));
  buildCommand : string;
  startCommand : string;
  status : Status;
  logs : option string;
  containerId : option string;
  url : option string;
  updatedAt : nat
}.

Definition set_name (v : option string) (d : Deployment) : Deployment :=
  mkDeployment (_id d) (user d) v (repoUrl d) (branch d) (envVars d)
    (buildCommand d) (startCommand d) (status d) (logs d) (containerId d)
    (url d) (updatedAt d).

Definition set_envVars (v : option (list (string * string))) (d : Deployment) : Deployment :=
  mkDeployment (_id d) (user d) (name d) (repoUrl d) (branch d) v
    (buildCommand d) (startCommand d) (status d) (logs d) (containerId d)
    (url d) (updatedAt d).

Definition set_buildCommand (v : string) (d : Deployment) : Deployment :=
  mkDeployment (_id d) (user d) (name d) (repoUrl d) (branch d) (envVars d)
    v (startCommand d) (status d) (logs d) (containerId d)
    (url d) (updatedAt d).

Definition set_startCommand (v : string) (d : Deployment) : Deployment :=
  mkDeployment (_id d) (user d) (name d) (repoUrl d) (branch d) (envVars d)
    (buildCommand d) v (status d) (logs d) (containerId d)
    (url d) (updatedAt d).

Definition set_status (v : Status) (d : Deployment) : Deployment :=
  mkDeployment (_id d) (user d) (name d) (repoUrl d) (branch d) (envVars d)
    (buildCommand d) (startCommand d) v (logs d) (containerId d)
    (url d) (updatedAt d).

Definition set_logs (v : string) (d : Deployment) : Deployment :=
  mkDeployment (_id d) (user d) (name d) (repoUrl d) (branch d) (envVars d)
    (buildCommand d) (startCommand d) (status d) (Some v) (containerId d)
    (url d) (updatedAt d).

Definition set_containerId (v : string) (d : Deployment) : Deployment :=
  mkDeployment (_id d) (user d) (name d) (repoUrl d) (branch d) (envVars d)
    (buildCommand d) (startCommand d) (status d) (logs d) (Some v)
    (url d) (updatedAt d).

Definition set_url (v : string) (d : Deployment) : Deployment :=
  mkDeployment (_id d) (user d) (name d) (repoUrl d) (branch d) (envVars d)
    (buildCommand d) (startCommand d) (status d) (logs d) (containerId d)
    (Some v) (updatedAt d).

Definition set_updatedAt (v : nat) (d : Deployment) : Deployment :=
  mkDeployment (_id d) (user d) (name d) (repoUrl d) (branch d) (envVars d)
    (buildCommand d) (startCommand d) (status d) (logs d) (containerId d)
    (url d) v.

(** [req.user] *)
Record User : Type := { user_id : string }.

(** [req.body]: every field is a string or absent, [envVars] an object of
    strings or absent. *)
Record Body : Type := {
  body_repoUrl : option string;
  body_branch : option string;
  body_envVars : option (list (string * string));
  body_buildCommand : option string;
  body_startCommand : option string;
  body_name : option string
}.

(** A value registered on the application with [app.set]: of these only
    the socket server is ever read back. *)
Inductive Setting : Type := SocketIo.

(** [req.app]: the Express application that received the request, with
    the table of the settings that [app.set] registered. *)
Record App : Type := { app_settings : gmap string Setting }.

(** [app.get(name)]: the setting registered under [name], or
    [undefined]. *)
Definition app_get (a : App) (name : string) : option Setting :=
  app_settings a !! name.

Record Request : Type := {
  req_app : App;
  req_user : User;
  req_params_id : string;
  req_body : Body
}.

(** An element of [docker.listContainers()]. *)
Record ContainerInfo : Type := { Id : string; Names : list string }.

(** An element of [docker.listImages()]; [RepoTags] may be [null]. *)
Record ImageInfo : Type := { ImageId : string; RepoTags : option (list string) }.

(** The options given to [docker.createContainer]. *)
Record ContainerSpec : Type := {
  Image : string;
  container_name : string;
  Env : list string;
  RestartPolicy : string
}.

(** The handle that [docker.createContainer] and [docker.getContainer]
    return. *)
Record Container : Type := { container_id : string }.

(** The payload of a [deployment_update] or [deployment_removed] event. *)
Record Payload : Type := {
  deploymentId : string;
  payload_status : option Status;
  payload_logs : option string;
  payload_updatedAt : option nat
}.

(** The object given to [res.json]. *)
Inductive JsonBody : Type :=
| Success (data : option Deployment)
| Failure (error : string).

(** ** The outside world

    Everything the code reaches outside its own process is a [Call]: the
    deployment store (Mongoose), the socket server, the logger, the HTTP
    response, git, the file system and the Docker daemon. A run records
    each call with what came back. *)

Inductive Call : Type :=
| DeploymentCreate (doc : Deployment)
| DeploymentFindOne (id owner : string)
| DeploymentSave (doc : Deployment)
| DeploymentRemove (doc : Deployment)
| IoEmit (room event : string) (payload : Payload)
| LoggerError (msg : string)
| ResStatus (code : nat)
| ResJson (body : JsonBody)
| GitClone (repo dir : string) (options : list string)
| FsExistsSync (path : string)
| FsWriteFileSync (path data : string)
| FsRmSync (path : string)
| DockerBuildImage (context tag : string) (buildargs : list (string * string))
| FollowProgress
| DockerCreateContainer (spec : ContainerSpec)
| ContainerStart (id : string)
| ContainerStop (id : string)
| ContainerRemove (id : string)
| ContainerRestart (id : string)
| DockerListContainers
| DockerListImages
| ImageRemove (id : string).

Inductive Val : Type :=
| VUnit
| VBool (b : bool)
| VString (s : string)
| VDoc (d : option Deployment)
| VContainers (cs : list ContainerInfo)
| VImages (imgs : list ImageInfo).

Inductive Outcome : Type :=
| Returned (v : Val)
| Rejected (e : exn).

Record Entry : Type := { call : Call; outcome : Outcome }.

(** How the outside world answers. Every answer may depend on the history
    of the run. [fails] says whether a call throws (or its promise
    rejects) and with what; the other fields give the value of the calls
    that return one; [clock] gives the wall-clock time at each instant of
    the run. [REPOS_DIR] and [DEPLOYMENT_DOMAIN] are the two settings read
    from the process. *)
Record Environment : Type := {
  fails : list Entry -> Call -> option exn;
  new_id : list Entry -> string;
  clock : nat -> nat;
  exists_sync : list Entry -> string -> bool;
  created_container : list Entry -> string;
  containers : list Entry -> list ContainerInfo;
  images : list Entry -> list ImageInfo;
  REPOS_DIR : string;
  DEPLOYMENT_DOMAIN : option string
}.

(** The persisted deployments, the history of calls, and the instant: the
    number of calls made so far. *)
Record World : Type := {
  store : gmap string Deployment;
  trace : list Entry;
  now : nat
}.

Definition record (c : Call) (o : Outcome) (w : World) : World :=
  {| store := store w;
     trace := trace w ++ [{| call := c; outcome := o |}];
     now := S (now w) |}.

(** ** Computations: state and exceptions *)

Inductive Result (A : Type) : Type :=
| Ok (a : A)
| Throw (e : exn).

Arguments Ok {A} a.
Arguments Throw {A} e.

Definition M (S A : Type) : Type := S -> Result A * S.

Definition ret {S A} (a : A) : M S A := fun s => (Ok a, s).

Definition bind {S A B} (m : M S A) (k : A -> M S B) : M S B :=
  fun s =>
    match m s with
    | (Ok a, s') => k a s'
    | (Throw e, s') => (Throw e, s')
    end.

Definition throw {S A} (e : exn) : M S A := fun s => (Throw e, s).

(** [try { m } catch (err) { h err }] *)
Definition try_catch {S A} (m : M S A) (h : exn -> M S A) : M S A :=
  fun s =>
    match m s with
    | (Ok a, s') => (Ok a, s')
    | (Throw e, s') => h e s'
    end.

Declare Scope js_scope.
Delimit Scope js_scope with js.
Notation "x <- m ;; k" := (bind m (fun x => k))
  (at level 100, m at next level, right associativity) : js_scope.
Notation "m ;; k" := (bind m (fun _ => k))
  (at level 100, right associativity) : js_scope.
Local Open Scope js_scope.

(** A handler's frame: the deployment document it holds (a mutable object
    that the route and the worker share) and the world. *)
Definition Frame : Type := Deployment * World.

Definition lift {A} (m : M World A) : M Frame A :=
  fun '(d, w) => let '(r, w') := m w in (r, (d, w')).

(** Runs the rest of a handler on the document [d]. *)
Definition scope {A} (d : Deployment) (m : M Frame A) : M World A :=
  fun w => let '(r, (_, w')) := m (d, w) in (r, w').

Definition this : M Frame Deployment := fun '(d, w) => (Ok d, (d, w)).

(** [deployment.field = v] *)
Definition assign (f : Deployment -> Deployment) : M Frame unit :=
  fun '(d, w) => (Ok tt, (f d, w)).

Section Calls.

Context (env : Environment).

(** A call that may fail and returns a value on success. *)
Definition perform {T} (c : Call) (answer : list Entry -> T) (inj : T -> Val) : M World T :=
  fun w =>
    match fails env (trace w) c with
    | Some e => (Throw e, record c (Rejected e) w)
    | None =>
        let v := answer (trace w) in
        (Ok v, record c (Returned (inj v)) w)
    end.

(** A call that may fail and returns nothing. *)
Definition invoke (c : Call) : M World unit :=
  perform c (fun _ => tt) (fun _ => VUnit).

(** A call that cannot fail. *)
Definition note (c : Call) : M World unit :=
  fun w => (Ok tt, record c (Returned VUnit) w).

(** [Deployment.create(fields)]: the store assigns [_id] and [updatedAt]
    and persists the document; the call is recorded with the document
    created. *)
Definition Deployment_create (fields : Deployment) : M World Deployment :=
  fun w =>
    let d :=
      mkDeployment (new_id env (trace w)) (user fields) (name fields)
        (repoUrl fields) (branch fields) (envVars fields)
        (buildCommand fields) (startCommand fields) (status fields)
        (logs fields) (containerId fields) (url fields)
        (clock env (now w)) in
    match fails env (trace w) (DeploymentCreate d) with
    | Some e => (Throw e, record (DeploymentCreate d) (Rejected e) w)
    | None =>
        (Ok d,
         {| store := <[_id d := d]> (store w);
            trace := trace w ++ [{| call := DeploymentCreate d;
                                    outcome := Returned VUnit |}];
            now := S (now w) |})
    end.

(** [Deployment.findOne({ _id: id, user: owner })] *)
Definition Deployment_findOne (id owner : string) : M World (option Deployment) :=
  fun w =>
    let found :=
      match store w !! id with
      | Some d => if String.eqb (user d) owner then Some d else None
      | None => None
      end in
    match fails env (trace w) (DeploymentFindOne id owner) with
    | Some e => (Throw e, record (DeploymentFindOne id owner) (Rejected e) w)
    | None => (Ok found, record (DeploymentFindOne id owner) (Returned (VDoc found)) w)
    end.

(** [deployment.save()] *)
Definition save : M Frame unit :=
  fun '(d, w) =>
    match fails env (trace w) (DeploymentSave d) with
    | Some e => (Throw e, (d, record (DeploymentSave d) (Rejected e) w))
    | None =>
        let d' := set_updatedAt (clock env (now w)) d in
        (Ok tt,
         (d',
          {| store := <[_id d := d']> (store w);
             trace := trace w ++ [{| call := DeploymentSave d;
                                     outcome := Returned VUnit |}];
             now := S (now w) |}))
    end.

(** [deployment.remove()] *)
Definition remove : M Frame unit :=
  fun '(d, w) =>
    match fails env (trace w) (DeploymentRemove d) with
    | Some e => (Throw e, (d, record (DeploymentRemove d) (Rejected e) w))
    | None =>
        (Ok tt,
         (d,
          {| store := delete (_id d) (store w);
             trace := trace w ++ [{| call := DeploymentRemove d;
                                     outcome := Returned VUnit |}];
             now := S (now w) |}))
    end.

(** [req.app.get('io').to(room).emit(event, payload)]: when no [io] is
    registered on the application, [get] returns [undefined] and reading
    [to] from it throws; on a registered socket server the emit is
    recorded and returns. *)
Definition io_emit (a : App) (room event : string) (payload : Payload) : M World unit :=
  match app_get a "io" with
  | Some _ => note (IoEmit room event payload)
  | None => throw (TypeError "Cannot read properties of undefined (reading 'to')")
  end.

Definition logger_error (msg : string) : M World unit := note (LoggerError msg).

Definition res_status (code : nat) : M World unit := note (ResStatus code).

Definition res_json (body : JsonBody) : M World unit := note (ResJson body).

(** [fs.existsSync(path)] never throws. *)
Definition fs_existsSync (path : string) : M World bool :=
  fun w =>
    let b := exists_sync env (trace w) path in
    (Ok b, record (FsExistsSync path) (Returned (VBool b)) w).

Definition fs_writeFileSync (path data : string) : M World unit :=
  invoke (FsWriteFileSync path data).

Definition fs_rmSync (path : string) : M World unit := invoke (FsRmSync path).

(** [path.join(a, b)] for a directory and a plain file name. *)
Definition path_join (a b : string) : string := a +:+ "/" +:+ b.

Definition docker_listContainers : M World (list ContainerInfo) :=
  perform DockerListContainers (containers env) VContainers.

Definition docker_listImages : M World (list ImageInfo) :=
  perform DockerListImages (images env) VImages.

Definition docker_createContainer (spec : ContainerSpec) : M World Container :=
  perform (DockerCreateContainer spec)
    (fun tr => {| container_id := created_container env tr |})
    (fun c => VString (container_id c)).

(** [Object.entries(o)], which throws on [undefined]. *)
Definition Object_entries {S} (o : option (list (string * string))) : M S (list (string * string)) :=
  match o with
  | Some kvs => ret (Js.entries kvs)
  | None => throw (TypeError "Cannot convert undefined or null to object")
  end.

(** Writes the own property [key] of an object given by its own
    properties in creation order: an existing property keeps its place. *)
Fixpoint set_property (key value : string) (acc : list (string * string)) : list (string * string) :=
  match acc with
  | [] => [(key, value)]
  | (k, v) :: rest =>
      if String.eqb k key then (k, value) :: rest
      else (k, v) :: set_property key value rest
  end.

(** [acc[key] = value] on an object that started as [{}], for a string
    [value]. Such an object inherits the accessor [__proto__]: assigning
    to that key calls the setter, which ignores a value that is neither
    an object nor [null], and creates no property. *)
Definition put_key (key value : string) (acc : list (string * string)) : list (string * string) :=
  if String.eqb key "__proto__" then acc else set_property key value acc.

End Calls.

(** ** utils/docker.js *)

Section Docker.

Context (env : Environment).

(** The template literal of the synthesized Dockerfile, before [trim]. *)
Definition dockerfileContent (deployment : Deployment) : string :=
  Js.nl +:+ "FROM node:14" +:+ Js.nl +:+
  "WORKDIR /app" +:+ Js.nl +:+
  "COPY . ." +:+ Js.nl +:+
  "RUN " +:+ buildCommand deployment +:+ Js.nl +:+
  "CMD " +:+ startCommand deployment +:+ Js.nl +:+
  "      ".

(** [`deploybot-${deployment._id}`] *)
Definition image_tag (deployment : Deployment) : string :=
  "deploybot-" +:+ _id deployment.

(** [`deploybot-${deployment._id}-${user.id}`] *)
Definition container_name_of (deployment : Deployment) (u : User) : string :=
  "deploybot-" +:+ _id deployment +:+ "-" +:+ user_id u.

(** [`http://${id.slice(0, 12)}.${process.env.DEPLOYMENT_DOMAIN || 'deploybot.app'}`] *)
Definition deployment_url (id : string) : string :=
  "http://" +:+ Js.slice0 12 id +:+ "." +:+
  Js.or_default (DEPLOYMENT_DOMAIN env) "deploybot.app".

(** The body of the [try] block of [buildAndStartContainer]. *)
Definition pipeline (u : User) : M Frame Container :=
  d0 <- this ;;
  let repoDir := path_join (REPOS_DIR env) (_id d0) in
  (* Clone repository *)
  assign (set_status cloning) ;;
  assign (set_logs "Cloning repository...") ;;
  save env ;;
  deployment <- this ;;
  lift (invoke env (GitClone (repoUrl deployment) repoDir
                      ["--branch"; branch deployment; "--depth"; "1"])) ;;
  (* Create Dockerfile if not exists *)
  present <- lift (fs_existsSync env (path_join repoDir "Dockerfile")) ;;
  (if negb present
   then
     deployment <- this ;;
     lift (fs_writeFileSync env (path_join repoDir "Dockerfile")
             (Js.trim (dockerfileContent deployment)))
   else ret tt) ;;
  (* Build image *)
  assign (set_status building) ;;
  assign (set_logs "Building Docker image...") ;;
  save env ;;
  deployment <- this ;;
  entries <- Object_entries (envVars deployment) ;;
  let buildargs := fold_left (fun acc '(key, value) => put_key key value acc) entries [] in
  lift (invoke env (DockerBuildImage repoDir (image_tag deployment) buildargs)) ;;
  lift (invoke env FollowProgress) ;;
  (* Create container *)
  assign (set_status starting) ;;
  assign (set_logs "Starting container...") ;;
  save env ;;
  deployment <- this ;;
  entries <- Object_entries (envVars deployment) ;;
  container <- lift (docker_createContainer env
    {| Image := image_tag deployment;
       container_name := container_name_of deployment u;
       Env := map (fun '(k, v) => k +:+ "=" +:+ v) entries;
       RestartPolicy := "always" |}) ;;
  lift (invoke env (ContainerStart (container_id container))) ;;
  (* Save container info *)
  assign (set_containerId (container_id container)) ;;
  assign (set_status running) ;;
  assign (set_logs "Container running successfully") ;;
  assign (set_url (deployment_url (container_id container))) ;;
  save env ;;
  ret container.

(** The body of the inner [try] block: clean up on error. *)
Definition cleanup (u : User) : M Frame unit :=
  deployment <- this ;;
  cs <- lift (docker_listContainers env) ;;
  let containerInfo :=
    Js.find (fun c => Js.includes (Names c) ("/" +:+ container_name_of deployment u)) cs in
  match containerInfo with
  | Some info =>
      lift (invoke env (ContainerStop (Id info))) ;;
      lift (invoke env (ContainerRemove (Id info)))
  | None => ret tt
  end ;;
  imgs <- lift (docker_listImages env) ;;
  let imageInfo :=
    Js.find (fun img =>
               match RepoTags img with
               | Some tags => Js.includes tags (image_tag deployment +:+ ":latest")
               | None => false
               end) imgs in
  match imageInfo with
  | Some info => lift (invoke env (ImageRemove (ImageId info)))
  | None => ret tt
  end.

(** The inner [try]/[catch]. *)
Definition guarded_cleanup (u : User) : M Frame unit :=
  try_catch (cleanup u)
    (fun cleanupErr => lift (logger_error ("Cleanup failed: " +:+ message cleanupErr))).

(** Build and start container for a deployment. *)
Definition buildAndStartContainer (u : User) : M Frame Container :=
  try_catch (pipeline u)
    (fun err => guarded_cleanup u ;; throw err).

(** Restart container. *)
Definition restartContainer : M Frame Container :=
  deployment <- this ;;
  if negb (Js.truthy (containerId deployment))
  then throw (Error "Container ID not found")
  else
    try_catch
      (let container := {| container_id := default "" (containerId deployment) |} in
       lift (invoke env (ContainerRestart (container_id container))) ;;
       assign (set_status running) ;;
       assign (set_logs "Container restarted successfully") ;;
       save env ;;
       ret container)
      (fun err =>
         assign (set_status failed) ;;
         assign (set_logs ("Restart failed: " +:+ message err)) ;;
         save env ;;
         throw err).

(** Stop and remove container. *)
Definition stopContainer : M Frame unit :=
  deployment <- this ;;
  if negb (Js.truthy (containerId deployment))
  then ret tt
  else
    try_catch
      (let container := {| container_id := default "" (containerId deployment) |} in
       lift (invoke env (ContainerStop (container_id container))) ;;
       lift (invoke env (ContainerRemove (container_id container))) ;;
       (* Remove image *)
       imgs <- lift (docker_listImages env) ;;
       let imageInfo :=
         Js.find (fun img =>
                    match RepoTags img with
                    | Some tags => Js.includes tags (image_tag deployment +:+ ":latest")
                    | None => false
                    end) imgs in
       match imageInfo with
       | Some info => lift (invoke env (ImageRemove (ImageId info)))
       | None => ret tt
       end ;;
       (* Remove repo directory *)
       let repoDir := path_join (REPOS_DIR env) (_id deployment) in
       present <- lift (fs_existsSync env repoDir) ;;
       if present then lift (fs_rmSync env repoDir) else ret tt)
      (fun err =>
         lift (logger_error ("Error stopping container: " +:+ message err)) ;;
         throw err).

End Docker.

(** ** routes/deployments.js *)

Section Routes.

Context (env : Environment).

(** [/github\.com\/.+\/.+/] *)
Definition github_pattern : Regex.regex :=
  Regex.Cat (Regex.lit "github.com/")
    (Regex.Cat (Regex.Plus Regex.Dot)
       (Regex.Cat (Regex.Chr "/") (Regex.Plus Regex.Dot))).

(** [v.match(r)] is non-null; dereferencing [undefined] throws. *)
Definition String_match {S} (v : option string) (r : Regex.regex) : M S bool :=
  match v with
  | Some s => ret (Regex.search r s)
  | None => throw (TypeError "Cannot read properties of undefined (reading 'match')")
  end.

Definition update_payload (id : string) (st : Status) (lg : option string) : Payload :=
  {| deploymentId := id; payload_status := Some st; payload_logs := lg;
     payload_updatedAt := None |}.

(** POST /api/deployments: create new deployment. *)
Definition post_deployments (req : Request) : M World unit :=
  let body := req_body req in
  (* Validate GitHub URL *)
  valid <- String_match (body_repoUrl body) github_pattern ;;
  if negb valid
  then
    res_status 400 ;;
    throw (Error "Invalid GitHub repository URL")
  else
    created <- Deployment_create env
      {| _id := ""; user := user_id (req_user req); name := body_name body;
         repoUrl := default "" (body_repoUrl body);
         branch := Js.or_default (body_branch body) "main";
         envVars := body_envVars body;
         buildCommand := Js.or_default (body_buildCommand body) "npm install";
         startCommand := Js.or_default (body_startCommand body) "npm start";
         status := initializing; logs := None; containerId := None;
         url := None; updatedAt := 0 |} ;;
    scope created
      ((* Emit event via Socket.io *)
       deployment <- this ;;
       lift (io_emit (req_app req) (user_id (req_user req)) "deployment_update"
               (update_payload (_id deployment) initializing None)) ;;
       (* Trigger worker process *)
       started <- try_catch
         (buildAndStartContainer env (req_user req) ;; ret true)
         (fun err =>
            lift (logger_error ("Deployment failed: " +:+ message err)) ;;
            assign (set_status failed) ;;
            assign (set_logs (message err)) ;;
            save env ;;
            deployment <- this ;;
            lift (io_emit (req_app req) (user_id (req_user req)) "deployment_update"
                    (update_payload (_id deployment) failed (Some (message err)))) ;;
            lift (res_status 500) ;;
            lift (res_json (Failure "Deployment failed to start")) ;;
            ret false) ;;
       if (started : bool)
       then
         deployment <- this ;;
         lift (res_status 201) ;;
         lift (res_json (Success (Some deployment)))
       else ret tt).

(** The lookup every [/:id] route starts with. *)
Definition find_deployment (req : Request) : M World Deployment :=
  found <- Deployment_findOne env (req_params_id req) (user_id (req_user req)) ;;
  match found with
  | Some deployment => ret deployment
  | None =>
      res_status 404 ;;
      throw (Error "Deployment not found")
  end.

(** PUT /api/deployments/:id: update deployment. *)
Definition put_deployment (req : Request) : M World unit :=
  found <- find_deployment req ;;
  scope found
    ((* Only allow updating certain fields *)
     let body := req_body req in
     (match body_envVars body with
      | Some v => assign (set_envVars (Some v))
      | None => ret tt
      end) ;;
     (if Js.truthy (body_buildCommand body)
      then assign (set_buildCommand (default "" (body_buildCommand body)))
      else ret tt) ;;
     (if Js.truthy (body_startCommand body)
      then assign (set_startCommand (default "" (body_startCommand body)))
      else ret tt) ;;
     (if Js.truthy (body_name body)
      then assign (set_name (body_name body))
      else ret tt) ;;
     save env ;;
     (* Emit update event *)
     deployment <- this ;;
     lift (io_emit (req_app req) (user_id (req_user req)) "deployment_update"
             {| deploymentId := _id deployment;
                payload_status := Some (status deployment);
                payload_logs := None;
                payload_updatedAt := Some (updatedAt deployment) |}) ;;
     lift (res_status 200) ;;
     lift (res_json (Success (Some deployment)))).

(** POST /api/deployments/:id/restart: restart deployment. *)
Definition post_restart (req : Request) : M World unit :=
  found <- find_deployment req ;;
  scope found
    (assign (set_status restarting) ;;
     save env ;;
     (* Emit event *)
     deployment <- this ;;
     lift (io_emit (req_app req) (user_id (req_user req)) "deployment_update"
             (update_payload (_id deployment) restarting None)) ;;
     restarted <- try_catch
       (restartContainer env ;; ret true)
       (fun err =>
          lift (logger_error ("Restart failed: " +:+ message err)) ;;
          assign (set_status failed) ;;
          assign (set_logs (message err)) ;;
          save env ;;
          deployment <- this ;;
          lift (io_emit (req_app req) (user_id (req_user req)) "deployment_update"
                  (update_payload (_id deployment) failed (Some (message err)))) ;;
          lift (res_status 500) ;;
          lift (res_json (Failure "Restart failed")) ;;
          ret false) ;;
     if (restarted : bool)
     then
       deployment <- this ;;
       lift (res_status 200) ;;
       lift (res_json (Success (Some deployment)))
     else ret tt).

(** DELETE /api/deployments/:id: delete deployment. *)
Definition delete_deployment (req : Request) : M World unit :=
  found <- find_deployment req ;;
  scope found
    (try_catch (stopContainer env)
       (fun err => lift (logger_error ("Error stopping container: " +:+ message err))) ;;
     remove env ;;
     (* Emit event *)
     lift (io_emit (req_app req) (user_id (req_user req)) "deployment_removed"
             {| deploymentId := req_params_id req; payload_status := None;
                payload_logs := None; payload_updatedAt := None |}) ;;
     lift (res_status 200) ;;
     lift (res_json (Success None))).

End Routes.

(** ** server.js: the application

    [server.js] creates the application and the socket server side by
    side, the latter as the local constant [io], and mounts the routes on
    the former. It calls [app.set] nowhere: the settings of the
    application hold no [io]. *)
Definition server_app : App := {| app_settings := ∅ |}.

(** The application of a request has no socket server registered. *)
Definition unwired (req : Request) : Prop := app_get (req_app req) "io" = None.

(** ** The server as a transition system *)

Inductive Route : Type :=
| PostDeployments
| PutDeployment
| PostRestart
| DeleteDeployment.

Definition handle (env : Environment) (route : Route) (req : Request) : M World unit :=
  match route with
  | PostDeployments => post_deployments env req
  | PutDeployment => put_deployment env req
  | PostRestart => post_restart env req
  | DeleteDeployment => delete_deployment env req
  end.

Definition initial_world : World := {| store := ∅; trace := []; now := 0 |}.

(** The worlds reached from the empty store by handling requests one
    after the other, whether a handler responds or throws, and by running
    the functions of the worker on a persisted record. *)
Inductive reachable (env : Environment) : World -> Prop :=
| reachable_init : reachable env initial_world
| reachable_step w route req :
    reachable env w ->
    reachable env (snd (handle env route req w))
| reachable_build w u d :
    reachable env w ->
    store w !! _id d = Some d ->
    reachable env (snd (snd (buildAndStartContainer env u (d, w))))
| reachable_restart w d :
    reachable env w ->
    store w !! _id d = Some d ->
    reachable env (snd (snd (restartContainer env (d, w))))
| reachable_stop w d :
    reachable env w ->
    store w !! _id d = Some d ->
    reachable env (snd (snd (stopContainer env (d, w)))).

(** ** Observations on a run *)

(** The entries that a run added to the history. *)
Definition since (w w' : World) : list Entry :=
  drop (length (trace w)) (trace w').

Definition calls (tr : list Entry) : list Call := map call tr.

(** The calls that carry out a pipeline stage: fetch, descriptor synthesis
    and image build, container create and start. *)
Definition is_stage (c : Call) : bool :=
  match c with
  | GitClone _ _ _ | FsWriteFileSync _ _ | DockerBuildImage _ _ _
  | FollowProgress | DockerCreateContainer _ | ContainerStart _ => true
  | _ => false
  end.

(** The calls on the deployment store. *)
Definition is_store (c : Call) : bool :=
  match c with
  | DeploymentCreate _ | DeploymentFindOne _ _ | DeploymentSave _
  | DeploymentRemove _ => true
  | _ => false
  end.

(** The calls on the container runtime, git and the file system. *)
Definition is_runtime (c : Call) : bool :=
  match c with
  | GitClone _ _ _ | FsExistsSync _ | FsWriteFileSync _ _ | FsRmSync _
  | DockerBuildImage _ _ _ | FollowProgress | DockerCreateContainer _
  | ContainerStart _ | ContainerStop _ | ContainerRemove _
  | ContainerRestart _ | DockerListContainers | DockerListImages
  | ImageRemove _ => true
  | _ => false
  end.

(** The store answers every call. *)
Definition store_reliable (env : Environment) : Prop :=
  forall tr c, is_store c = true -> fails env tr c = None.

(** Every call is answered: nothing fails on the store, the runtime, git
    or the file system. *)
Definition reliable (env : Environment) : Prop :=
  forall tr c, fails env tr c = None.

(** The document that an entry persisted, if it is a successful [create]
    or [save]. *)
Definition persisted (e : Entry) : option Deployment :=
  match call e, outcome e with
  | DeploymentCreate d, Returned _ => Some d
  | DeploymentSave d, Returned _ => Some d
  | _, _ => None
  end.

Definition persisted_status (e : Entry) : list Status :=
  match persisted e with
  | Some d => [status d]
  | None => []
  end.

(** The statuses persisted, in order. *)
Definition saved_statuses (tr : list Entry) : list Status :=
  flat_map persisted_status tr.

Definition emitted (e : Entry) : list (string * string * Payload) :=
  match call e with
  | IoEmit room event p => [(room, event, p)]
  | _ => []
  end.

(** The events published: room, event name, payload. *)
Definition published (tr : list Entry) : list (string * string * Payload) :=
  flat_map emitted tr.

(** Was a [deployment_update] carrying status [st] published to [room]? *)
Definition status_published (room : string) (tr : list Entry) (st : Status) : bool :=
  existsb (fun '(r, ev, p) =>
             String.eqb r room && String.eqb ev "deployment_update" &&
             bool_decide (payload_status p = Some st))
    (published tr).

Definition status_set (e : Entry) : list nat :=
  match call e with
  | ResStatus code => [code]
  | _ => []
  end.

(** The status codes set on the response. *)
Definition responses (tr : list Entry) : list nat := flat_map status_set tr.

Definition rejection (e : Entry) : list (Call * exn) :=
  match outcome e with
  | Rejected err => [(call e, err)]
  | Returned _ => []
  end.

(** The calls that failed, with their errors. *)
Definition rejections (tr : list Entry) : list (Call * exn) :=
  flat_map rejection tr.

Definition stage_call (e : Entry) : list Call :=
  if is_stage (call e) then [call e] else [].

(** The pipeline stages attempted. *)
Definition stage_calls (tr : list Entry) : list Call := flat_map stage_call tr.

Definition runtime_call (e : Entry) : list Call :=
  if is_runtime (call e) then [call e] else [].

(** The calls made on the runtime, git and the file system. *)
Definition runtime_calls (tr : list Entry) : list Call := flat_map runtime_call tr.

(** The calls that cleanup makes: on the runtime, and on the logger when
    one of them fails. *)
Definition is_cleanup (c : Call) : bool :=
  match c with
  | DockerListContainers | ContainerStop _ | ContainerRemove _
  | DockerListImages | ImageRemove _ | LoggerError _ => true
  | _ => false
  end.

(** What a cleanup leaves in the history: it starts by listing the
    containers, makes no other kind of call, and ends by logging the
    failure it met, if any. *)
Definition cleanup_trace (new : list Entry) : Prop :=
  head (calls new) = Some DockerListContainers /\
  forallb (fun e => is_cleanup (call e)) new = true /\
  (forall c e, In (c, e) (rejections new) ->
     last (calls new) = Some (LoggerError ("Cleanup failed: " +:+ message e))).

(** The error of the first pipeline stage that failed. *)
Fixpoint stage_failure (tr : list Entry) : option exn :=
  match tr with
  | [] => None
  | e :: rest =>
      match outcome e with
      | Rejected err => if is_stage (call e) then Some err else stage_failure rest
      | Returned _ => stage_failure rest
      end
  end.

(** What a run did after its first failed pipeline stage. *)
Fixpoint after_stage_failure (tr : list Entry) : list Entry :=
  match tr with
  | [] => []
  | e :: rest =>
      match outcome e with
      | Rejected _ => if is_stage (call e) then rest else after_stage_failure rest
      | Returned _ => after_stage_failure rest
      end
  end.

Definition existence_check (e : Entry) : list (string * bool) :=
  match call e, outcome e with
  | FsExistsSync p, Returned (VBool b) => [(p, b)]
  | _, _ => []
  end.

(** The answers of [fs.existsSync] during a run. *)
Definition existence_checks (tr : list Entry) : list (string * bool) :=
  flat_map existence_check tr.

Definition file_written (e : Entry) : list (string * string) :=
  match call e with
  | FsWriteFileSync p data => [(p, data)]
  | _ => []
  end.

(** The files that a run wrote, or tried to. *)
Definition files_written (tr : list Entry) : list (string * string) :=
  flat_map file_written tr.

Definition dir_removed (e : Entry) : list string :=
  match call e, outcome e with
  | FsRmSync p, Returned _ => [p]
  | _, _ => []
  end.

(** The directories removed during a run. *)
Definition dirs_removed (tr : list Entry) : list string :=
  flat_map dir_removed tr.

Definition image_named (e : Entry) : list string :=
  match call e with
  | DockerBuildImage _ tag _ => [tag]
  | DockerCreateContainer spec => [Image spec]
  | _ => []
  end.

(** The tags of the images built and the images of the containers
    created. *)
Definition image_tags (tr : list Entry) : list string :=
  flat_map image_named tr.

(** The build descriptor that the worker synthesizes, line by line. *)
Definition descriptor (build start : string) : string :=
  "FROM node:14" +:+ Js.nl +:+
  "WORKDIR /app" +:+ Js.nl +:+
  "COPY . ." +:+ Js.nl +:+
  "RUN " +:+ build +:+ Js.nl +:+
  "CMD " +:+ start.

(** The address of a running deployment as the specification words it:
    the 12-character prefix of the container reference, a dot, the
    configured domain. *)
Definition spec_url (env : Environment) (containerRef : string) : string :=
  Js.slice0 12 containerRef +:+ "." +:+
  Js.or_default (DEPLOYMENT_DOMAIN env) "deploybot.app".

(** The invariant of a persisted deployment: a running deployment has a
    container, and a deployment with a container has the address derived
    from it. *)
Definition consistent (env : Environment) (d : Deployment) : Prop :=
  (status d = running -> is_Some (containerId d)) /\
  (forall c, containerId d = Some c -> url d = Some (deployment_url env c)).

(** The invariant of the store: every record is stored under its own id
    and is consistent. *)
Definition sound (env : Environment) (st : gmap string Deployment) : Prop :=
  forall id d, st !! id = Some d -> _id d = id /\ consistent env d.

(** A character that [.] matches, and a run of them. *)
Fixpoint dotted (s : string) : bool :=
  match s with
  | EmptyString => true
  | String a s' => negb (Js.line_terminator a) && dotted s'
  end.

(** The strings that contain [github.com/<x>/<y>]. *)
Definition github_shaped (s : string) : Prop :=
  exists before x y rest,
    s = before +:+ "github.com/" +:+ x +:+ "/" +:+ y +:+ rest /\
    x <> "" /\ y <> "" /\ dotted x = true /\ dotted y = true.

(** The statuses of a Start, in order. *)
Definition start_sequence : list Status :=
  [initializing; cloning; building; starting; running].

(** As the specification has it: every status that the Start pipeline
    persists for the deployment [d] of the user [u] is also published to
    the owner's room as a [deployment_update]. *)
Definition publishes_every_transition
    (env : Environment) (u : User) (d : Deployment) (w : World) : Prop :=
  let new := since w (snd (snd (buildAndStartContainer env u (d, w)))) in
  Forall (fun st => status_published (user_id u) new st = true)
    (saved_statuses new).

(** As the specification has it: Stop succeeds on the deployment [d]. *)
Definition stop_succeeds (env : Environment) (d : Deployment) (w : World) : Prop :=
  fst (stopContainer env (d, w)) = Ok tt.

(** As the specification has it: Terminate removes the workspace of the
    deployment. *)
Definition terminate_removes_workspace
    (env : Environment) (req : Request) (w : World) : Prop :=
  In (path_join (REPOS_DIR env) (req_params_id req))
     (dirs_removed (since w (snd (delete_deployment env req w)))).

(** As the specification has it: a running deployment has a container
    reference and the address [spec_url]. *)
Definition running_has_spec_url (env : Environment) (w : World) : Prop :=
  forall id d,
    store w !! id = Some d -> status d = running ->
    exists c, containerId d = Some c /\ url d = Some (spec_url env c).

(** ** Scenarios *)

Module Scenario.

Definition alice : User := {| user_id := "u1" |}.

Definition body : Body :=
  {| body_repoUrl := Some "https://github.com/a/b";
     body_branch := Some "main";
     body_envVars := Some [("PORT", "8080")];
     body_buildCommand := Some "npm install";
     body_startCommand := Some "npm start";
     body_name := Some "demo" |}.

(** A creation request, as the application of [server.js] receives it. *)
Definition create_request : Request :=
  {| req_app := server_app; req_user := alice; req_params_id := "";
     req_body := body |}.

(** A request on the deployment [64b7f0c2a1], as the application of
    [server.js] receives it. *)
Definition id_request : Request :=
  {| req_app := server_app; req_user := alice; req_params_id := "64b7f0c2a1";
     req_body := {| body_repoUrl := None; body_branch := None;
                    body_envVars := None;
                    body_buildCommand := Some "npm ci";
                    body_startCommand := None; body_name := None |} |}.

(** Nothing fails; the cloned repository has no Dockerfile. *)
Definition happy : Environment :=
  {| fails := fun _ _ => None;
     new_id := fun _ => "64b7f0c2a1";
     clock := fun t => t;
     exists_sync := fun _ _ => false;
     created_container := fun _ => "0123456789abcdef0123";
     containers := fun _ => [];
     images := fun _ => [];
     REPOS_DIR := "/app/repos";
     DEPLOYMENT_DOMAIN := None |}.

(** The repository cannot be fetched. *)
Definition unreachable_repo : Environment :=
  {| fails := fun _ c =>
       match c with
       | GitClone _ _ _ => Some (Error "fatal: repository not found")
       | _ => None
       end;
     new_id := fun _ => "64b7f0c2a1";
     clock := fun t => t;
     exists_sync := fun _ _ => false;
     created_container := fun _ => "0123456789abcdef0123";
     containers := fun _ => [];
     images := fun _ => [];
     REPOS_DIR := "/app/repos";
     DEPLOYMENT_DOMAIN := None |}.

(** The image builds, the container cannot be created, and during cleanup
    the image cannot be removed either. *)
Definition failing_cleanup : Environment :=
  {| fails := fun _ c =>
       match c with
       | DockerCreateContainer _ => Some (Error "(HTTP code 409) conflict - name in use")
       | ImageRemove _ => Some (Error "(HTTP code 409) conflict - image is in use")
       | _ => None
       end;
     new_id := fun _ => "64b7f0c2a1";
     clock := fun t => t;
     exists_sync := fun _ _ => true;
     created_container := fun _ => "0123456789abcdef0123";
     containers := fun _ => [];
     images := fun _ => [{| ImageId := "sha256:77"; RepoTags := Some ["deploybot-64b7f0c2a1:latest"] |}];
     REPOS_DIR := "/app/repos";
     DEPLOYMENT_DOMAIN := None |}.

(** The container was removed behind the server's back: the runtime lists
    no container and answers 404 to every request on one. The workspace
    and the image are still there. *)
Definition containers_listed : list ContainerInfo := [].

Definition container_gone : Environment :=
  {| fails := fun _ c =>
       match c with
       | ContainerStop _ | ContainerRemove _ | ContainerRestart _ =>
           Some (Error "(HTTP code 404) no such container")
       | _ => None
       end;
     new_id := fun _ => "64b7f0c2a1";
     clock := fun t => t;
     exists_sync := fun _ _ => true;
     created_container := fun _ => "0123456789abcdef0123";
     containers := fun _ => containers_listed;
     images := fun _ => [{| ImageId := "sha256:77"; RepoTags := Some ["deploybot-64b7f0c2a1:latest"] |}];
     REPOS_DIR := "/app/repos";
     DEPLOYMENT_DOMAIN := Some "apps.example.org" |}.

(** A deployment as the creation route hands it to the worker. *)
Definition new_deployment : Deployment :=
  {| _id := "64b7f0c2a1"; user := "u1"; name := Some "demo";
     repoUrl := "https://github.com/a/b"; branch := "main";
     envVars := Some [("PORT", "8080")];
     buildCommand := "npm install"; startCommand := "npm start";
     status := initializing; logs := None;
     containerId := None; url := None; updatedAt := 0 |}.

(** A deployment that runs. *)
Definition running_deployment : Deployment :=
  {| _id := "64b7f0c2a1"; user := "u1"; name := Some "demo";
     repoUrl := "https://github.com/a/b"; branch := "main";
     envVars := Some [("PORT", "8080")];
     buildCommand := "npm install"; startCommand := "npm start";
     status := running; logs := Some "Container running successfully";
     containerId := Some "0123456789abcdef0123";
     url := Some "http://0123456789ab.deploybot.app"; updatedAt := 11 |}.

(** A deployment whose build failed: it never got a container. *)
Definition failed_deployment : Deployment :=
  {| _id := "64b7f0c2a1"; user := "u1"; name := Some "demo";
     repoUrl := "https://github.com/a/b"; branch := "main";
     envVars := Some [("PORT", "8080")];
     buildCommand := "npm install"; startCommand := "npm start";
     status := failed; logs := Some "build failed";
     containerId := None; url := None; updatedAt := 7 |}.

Definition world_with (d : Deployment) : World :=
  {| store := {[ _id d := d ]}; trace := []; now := 0 |}.

End Scenario.

(** ** The rest of the routes and the server around them *)

Section Server.

Context (env : Environment).

(** GET /api/deployments/:id: get single deployment. *)
Definition get_deployment (req : Request) : M World unit :=
  deployment <- find_deployment env req ;;
  res_status 200 ;;
  res_json (Success (Some deployment)).

(** The routes of [/api/deployments] that address or create one
    deployment. *)
Inductive Endpoint : Type :=
| GetDeployment
| Through (route : Route).

Definition endpoint (e : Endpoint) (req : Request) : M World unit :=
  match e with
  | GetDeployment => get_deployment req
  | Through route => handle env route req
  end.

(** [err.stack], as the logger of [server.js] receives it. *)
Context (stack : exn -> string).

(** The error-handling middleware of [server.js]. *)
Definition error_middleware (err : exn) : M World unit :=
  logger_error (stack err) ;;
  res_status 500 ;;
  res_json (Failure "Server error").

(** A route under [asyncHandler], with the error-handling middleware
    behind it: what the handler throws goes to the middleware. *)
Definition serve (e : Endpoint) (req : Request) : M World unit :=
  try_catch (endpoint e req) error_middleware.

End Server.

(** The record that a request addresses: the one it creates, or the one
    its [:id] names. *)
Definition addressed (env : Environment) (e : Endpoint) (req : Request) (w : World) : string :=
  match e with
  | Through PostDeployments => new_id env (trace w)
  | _ => req_params_id req
  end.

Definition body_sent (e : Entry) : list JsonBody :=
  match call e with
  | ResJson b => [b]
  | _ => []
  end.

(** The bodies given to [res.json] during a run. *)
Definition bodies (tr : list Entry) : list JsonBody := flat_map body_sent tr.

(** The status that the response goes out with: the last one set. *)
Definition sent_status (tr : list Entry) : option nat := last (responses tr).

Definition removal_asked (e : Entry) : list string :=
  match call e with
  | FsRmSync p => [p]
  | _ => []
  end.

(** The directories that a run asked the file system to remove. *)
Definition removals_asked (tr : list Entry) : list string :=
  flat_map removal_asked tr.

(** What a run did after the first call that failed. *)
Fixpoint after_rejection (tr : list Entry) : list Entry :=
  match tr with
  | [] => []
  | e :: rest =>
      match outcome e with
      | Rejected _ => rest
      | Returned _ => after_rejection rest
      end
  end.

(** The fields of a document that only Update may change. *)
Definition settings (d : Deployment) :
    string * string * option string * string * string *
    option (list (string * string)) * string * string :=
  (_id d, user d, name d, repoUrl d, branch d, envVars d, buildCommand d,
   startCommand d).

(** ** The theme provider of the client

    [darkMode] starts as [false]; the effect run at mount replaces it by
    the saved preference, parsed, or else by the system's; the toggle
    negates it and saves it. Of a value that is not a boolean only the
    truthiness is observed. *)

Module Theme.

Inductive value : Type :=
| Boolean (b : bool)
| Other (truth : bool).

Definition truthy (v : value) : bool :=
  match v with
  | Boolean b => b
  | Other t => t
  end.

(** [JSON.stringify] of a boolean. *)
Definition JSON_stringify (b : bool) : string := if b then "true" else "false".

(** The browser: the [darkMode] item of [localStorage], absent or a
    string, and [window.matchMedia], absent or answering whether the
    system prefers dark. *)
Record Browser : Type := {
  darkMode_item : option string;
  matchMedia : option bool
}.

Section Provider.

(** [JSON.parse] on a text that is neither of the two boolean literals:
    a value, or nothing when it throws. *)
Context (parse_other : string -> option value).

Definition JSON_parse (s : string) : option value :=
  if String.eqb s "true" then Some (Boolean true)
  else if String.eqb s "false" then Some (Boolean false)
  else parse_other s.

(** [window.matchMedia && window.matchMedia('(prefers-color-scheme: dark)').matches] *)
Definition systemPrefersDark (b : Browser) : value :=
  match matchMedia b with
  | Some m => Boolean m
  | None => Other false
  end.

(** The effect run at mount: the value given to [setDarkMode], or nothing
    when parsing the saved preference throws. *)
Definition mount (b : Browser) : option value :=
  if Js.truthy (darkMode_item b)
  then JSON_parse (default EmptyString (darkMode_item b))
  else Some (systemPrefersDark b).

(** [toggleDarkMode], called when [darkMode] is [v]: the new value of
    [darkMode] and the browser after it. *)
Definition toggleDarkMode (v : value) (b : Browser) : value * Browser :=
  let newMode := negb (truthy v) in
  (Boolean newMode,
   {| darkMode_item := Some (JSON_stringify newMode);
      matchMedia := matchMedia b |}).

(** [`theme-${darkMode ? 'dark' : 'light'}`] *)
Definition className (v : value) : string :=
  "theme-" +:+ (if truthy v then "dark" else "light").

End Provider.

End Theme.

(** ** The socket server of server.js

    A socket is in the room named by its own id from its connection on;
    [socket.join] adds a room; a socket that disconnects leaves its rooms.
    [io.to(room).emit] reaches the sockets that are in [room]. *)

Module Hub.

(** What a client sends: [subscribe] with its argument, [disconnect], or
    an event under another name, as the [authenticate] of the client. *)
Inductive Message : Type :=
| Subscribe (deploymentId : string)
| Disconnect
| Named (event : string).

Inductive Event : Type :=
| Connection (socket : string)
| From (socket : string) (m : Message).

(** The rooms of each connected socket, and what [logger.info] got. *)
Record State : Type := {
  rooms : gmap string (gset string);
  info : list string
}.

Definition empty : State := {| rooms := ∅; info := [] |}.

(** The handler of [connection], and the handlers it installs on the
    socket; an event without a handler is dropped. *)
Definition step (s : State) (ev : Event) : State :=
  match ev with
  | Connection socket =>
      {| rooms := <[socket := {[ socket ]}]> (rooms s);
         info := info s ++ ["New client connected"] |}
  | From socket m =>
      match rooms s !! socket with
      | None => s
      | Some joined =>
          match m with
          | Subscribe deploymentId =>
              {| rooms := <[socket := joined ∪ {[ deploymentId ]}]> (rooms s);
                 info := info s ++
                         ["Client subscribed to deployment " +:+ deploymentId] |}
          | Disconnect =>
              {| rooms := delete socket (rooms s);
                 info := info s ++ ["Client disconnected"] |}
          | Named _ => s
          end
      end
  end.

Definition run (events : list Event) : State := fold_left step events empty.

(** Does an event emitted to [room] reach [socket]? *)
Definition reaches (s : State) (room socket : string) : Prop :=
  exists joined, rooms s !! socket = Some joined /\ room ∈ joined.

End Hub.

(** * Properties *)

(** ** Strings *)

Lemma append_nil_r (s : string) : s +:+ "" = s.
Proof. induction s as [|a s IH]; [reflexivity|]. change (String a (s +:+ "") = String a s). by rewrite IH. Qed.

Lemma append_assoc (s t u : string) : (s +:+ t) +:+ u = s +:+ (t +:+ u).
Proof.
  induction s as [|a s IH]; [reflexivity|].
  change (String a ((s +:+ t) +:+ u) = String a (s +:+ (t +:+ u))). by rewrite IH.
Qed.

Lemma append_cons (a : ascii) (s t : string) : String a s +:+ t = String a (s +:+ t).
Proof. reflexivity. Qed.

Lemma append_eq_nil (s t : string) : s +:+ t = "" -> s = "" /\ t = "".
Proof. destruct s; [intros H; split; [reflexivity | exact H] | discriminate]. Qed.

(** ** The pattern matcher agrees with the words of a pattern *)

Lemma lang_cat_inv (r1 r2 : Regex.regex) (s : string) :
  Regex.lang (Regex.Cat r1 r2) s ->
  exists s1 s2, s = s1 +:+ s2 /\ Regex.lang r1 s1 /\ Regex.lang r2 s2.
Proof. intros H. inversion H; subst. eauto. Qed.

Lemma lang_alt_inv (r1 r2 : Regex.regex) (s : string) :
  Regex.lang (Regex.Alt r1 r2) s -> Regex.lang r1 s \/ Regex.lang r2 s.
Proof. intros H. inversion H; subst; eauto. Qed.

Lemma lang_chr_inv (a : ascii) (s : string) :
  Regex.lang (Regex.Chr a) s -> s = String a "".
Proof. intros H. by inversion H. Qed.

Lemma lang_dot_inv (s : string) :
  Regex.lang Regex.Dot s -> exists a, s = String a "" /\ Js.line_terminator a = false.
Proof. intros H. inversion H; subst. eauto. Qed.

Lemma nullable_lang (r : Regex.regex) : Regex.nullable r = true <-> Regex.lang r "".
Proof.
  induction r as [| | a | |r1 IH1 r2 IH2|r1 IH1 r2 IH2|r IH]; simpl; split; intros H;
    try discriminate; try (by constructor); try (by inversion H).
  - apply orb_true_iff in H as [H|H].
    + apply Regex.lang_alt_l, IH1, H.
    + apply Regex.lang_alt_r, IH2, H.
  - apply orb_true_iff. inversion H; subst; [left; by apply IH1 | right; by apply IH2].
  - apply andb_true_iff in H as [H1 H2].
    change (Regex.lang (Regex.Cat r1 r2) ("" +:+ "")).
    constructor; [by apply IH1 | by apply IH2].
  - apply lang_cat_inv in H as (s1 & s2 & Heq & L1 & L2). symmetry in Heq.
    apply append_eq_nil in Heq as [-> ->].
    apply andb_true_iff; split; [by apply IH1 | by apply IH2].
Qed.

(** A non-empty word of [r*] starts with a non-empty word of [r]. *)
Lemma lang_star_cons (r : Regex.regex) (a : ascii) (s : string) :
  Regex.lang (Regex.Star r) (String a s) ->
  exists s1 s2, s = s1 +:+ s2 /\ Regex.lang r (String a s1) /\ Regex.lang (Regex.Star r) s2.
Proof.
  intros H. remember (Regex.Star r) as r' eqn:Hr. remember (String a s) as w eqn:Hw.
  revert s Hw Hr.
  induction H as [| | | | | | |r0 s1 s2 L1 _ L2 IH]; intros t Ht Hr; try discriminate.
  injection Hr as ->.
  destruct s1 as [|b s1].
  - apply IH; [exact Ht | reflexivity].
  - rewrite append_cons in Ht. injection Ht as -> <-.
    exists s1, s2. done.
Qed.

Lemma deriv_lang (a : ascii) (r : Regex.regex) (s : string) :
  Regex.lang (Regex.deriv a r) s <-> Regex.lang r (String a s).
Proof.
  revert s.
  induction r as [| | b | |r1 IH1 r2 IH2|r1 IH1 r2 IH2|r IH]; intros s; simpl.
  - split; intros H; inversion H.
  - split; intros H; inversion H.
  - destruct (Ascii.eqb_spec a b) as [->|Hne]; split; intros H; inversion H; subst;
      try constructor; congruence.
  - destruct (Js.line_terminator a) eqn:Hlt; split; intros H; inversion H; subst;
      try (by constructor); congruence.
  - split; intros H; apply lang_alt_inv in H as [H|H].
    + apply Regex.lang_alt_l. by apply IH1.
    + apply Regex.lang_alt_r. by apply IH2.
    + apply Regex.lang_alt_l. by apply IH1.
    + apply Regex.lang_alt_r. by apply IH2.
  - assert (Hcat : forall s, Regex.lang (Regex.Cat (Regex.deriv a r1) r2) s ->
                             Regex.lang (Regex.Cat r1 r2) (String a s)).
    { intros s0 H. apply lang_cat_inv in H as (s1 & s2 & -> & L1 & L2).
      rewrite <- append_cons. constructor; [by apply IH1 | done]. }
    assert (Hinv : forall s, Regex.lang (Regex.Cat r1 r2) (String a s) ->
                             Regex.lang (Regex.Cat (Regex.deriv a r1) r2) s \/
                             (Regex.lang r1 "" /\ Regex.lang r2 (String a s))).
    { intros s0 H. apply lang_cat_inv in H as (s1 & s2 & Heq & L1 & L2).
      destruct s1 as [|b s1].
      - right. change (String a s0 = s2) in Heq. by subst.
      - rewrite append_cons in Heq. injection Heq as <- ->.
        left. constructor; [by apply IH1 | done]. }
    destruct (Regex.nullable r1) eqn:Hn; split; intros H.
    + apply lang_alt_inv in H as [H|H]; [by apply Hcat |].
      change (Regex.lang (Regex.Cat r1 r2) ("" +:+ String a s)).
      constructor; [by apply nullable_lang | by apply IH2].
    + destruct (Hinv _ H) as [H'|[_ H']].
      * by apply Regex.lang_alt_l.
      * apply Regex.lang_alt_r. by apply IH2.
    + by apply Hcat.
    + destruct (Hinv _ H) as [H'|[H' _]]; [done|].
      apply nullable_lang in H'. congruence.
  - split; intros H.
    + apply lang_cat_inv in H as (s1 & s2 & -> & L1 & L2).
      rewrite <- append_cons. constructor; [by apply IH | done].
    + apply lang_star_cons in H as (s1 & s2 & -> & L1 & L2).
      constructor; [by apply IH | done].
Qed.

Lemma match_here_spec (r : Regex.regex) (s : string) :
  Regex.match_here r s = true <-> exists p q, s = p +:+ q /\ Regex.lang r p.
Proof.
  revert r. induction s as [|a s IH]; intros r; simpl.
  - rewrite orb_false_r, nullable_lang. split.
    + intros H. by exists "", "".
    + intros (p & q & Heq & H). symmetry in Heq.
      apply append_eq_nil in Heq as [-> _]. done.
  - rewrite orb_true_iff, nullable_lang, IH. split.
    + intros [H|(p & q & -> & H)].
      * by exists "", (String a s).
      * exists (String a p), q. split; [done | by apply deriv_lang].
    + intros (p & q & Heq & H). destruct p as [|b p].
      * by left.
      * rewrite append_cons in Heq. injection Heq as -> ->.
        right. exists p, q. split; [done | by apply deriv_lang].
Qed.

Lemma search_spec (r : Regex.regex) (s : string) :
  Regex.search r s = true <->
  exists before p rest, s = before +:+ p +:+ rest /\ Regex.lang r p.
Proof.
  induction s as [|a s IH]; cbn [Regex.search].
  - rewrite orb_false_r, match_here_spec. split.
    + intros (p & q & -> & H). by exists "", p, q.
    + intros (b & p & q & Heq & H). symmetry in Heq.
      apply append_eq_nil in Heq as [-> Heq].
      exists p, q. done.
  - rewrite orb_true_iff, match_here_spec, IH. split.
    + intros [(p & q & -> & H)|(b & p & q & -> & H)].
      * by exists "", p, q.
      * by exists (String a b), p, q.
    + intros (b & p & q & Heq & H). destruct b as [|c b].
      * left. by exists p, q.
      * rewrite append_cons in Heq. injection Heq as -> ->.
        right. by exists b, p, q.
Qed.

(** ** The words of the repository-URL pattern *)

Lemma lang_lit (s p : string) : Regex.lang (Regex.lit s) p <-> p = s.
Proof.
  revert p. induction s as [|a s IH]; intros p; simpl; split; intros H.
  - by inversion H.
  - subst. constructor.
  - apply lang_cat_inv in H as (s1 & s2 & -> & L1 & L2).
    apply lang_chr_inv in L1 as ->. apply IH in L2 as ->. reflexivity.
  - subst. change (Regex.lang (Regex.Cat (Regex.Chr a) (Regex.lit s)) (String a "" +:+ s)).
    constructor; [constructor | by apply IH].
Qed.

Lemma lang_star_dot (x : string) :
  Regex.lang (Regex.Star Regex.Dot) x <-> dotted x = true.
Proof.
  induction x as [|a x IH]; simpl; split; intros H.
  - reflexivity.
  - constructor.
  - apply lang_star_cons in H as (s1 & s2 & -> & L1 & L2).
    apply lang_dot_inv in L1 as (b & [= -> ->] & Hb). apply IH in L2.
    apply andb_true_iff. split; [by apply negb_true_iff | done].
  - apply andb_true_iff in H as [Ha Hx]. apply negb_true_iff in Ha.
    change (Regex.lang (Regex.Star Regex.Dot) (String a "" +:+ x)).
    constructor; [by constructor | by apply IH].
Qed.

Lemma lang_plus_dot (x : string) :
  Regex.lang (Regex.Plus Regex.Dot) x <-> x <> "" /\ dotted x = true.
Proof.
  unfold Regex.Plus. split.
  - intros H. apply lang_cat_inv in H as (s1 & s2 & -> & L1 & L2).
    apply lang_dot_inv in L1 as (a & -> & Ha). apply lang_star_dot in L2.
    split; [discriminate|]. simpl. apply andb_true_iff.
    split; [by apply negb_true_iff | done].
  - intros [Hne H]. destruct x as [|a x]; [done|].
    simpl in H. apply andb_true_iff in H as [Ha Hx]. apply negb_true_iff in Ha.
    change (Regex.lang (Regex.Cat Regex.Dot (Regex.Star Regex.Dot)) (String a "" +:+ x)).
    constructor; [by constructor | by apply lang_star_dot].
Qed.

Lemma lang_github_pattern (p : string) :
  Regex.lang github_pattern p <->
  exists x y, p = "github.com/" +:+ x +:+ "/" +:+ y /\
              x <> "" /\ y <> "" /\ dotted x = true /\ dotted y = true.
Proof.
  unfold github_pattern. split.
  - intros H.
    apply lang_cat_inv in H as (s1 & t1 & -> & L1 & H1).
    apply lang_cat_inv in H1 as (s2 & t2 & -> & L2 & H2).
    apply lang_cat_inv in H2 as (s3 & t3 & -> & L3 & L4).
    apply lang_lit in L1 as ->. apply lang_chr_inv in L3 as ->.
    apply lang_plus_dot in L2 as [? ?]. apply lang_plus_dot in L4 as [? ?].
    exists s2, t3. done.
  - intros (x & y & -> & Hx & Hy & Dx & Dy).
    constructor; [by apply lang_lit|].
    constructor; [by apply lang_plus_dot|].
    change (Regex.lang (Regex.Cat (Regex.Chr "/") (Regex.Plus Regex.Dot)) (String "/" "" +:+ y)).
    constructor; [constructor | by apply lang_plus_dot].
Qed.

(** The guard of the creation route accepts the strings that contain
    [github.com/<x>/<y>] and no others. *)
Lemma guard_accepts (s : string) :
  Regex.search github_pattern s = true <-> github_shaped s.
Proof.
  rewrite search_spec. unfold github_shaped. split.
  - intros (b & p & rest & -> & H).
    apply lang_github_pattern in H as (x & y & -> & ?).
    exists b, x, y, rest. split; [|done].
    by rewrite !append_assoc.
  - intros (b & x & y & rest & -> & ?).
    exists b, ("github.com/" +:+ x +:+ "/" +:+ y), rest.
    split; [by rewrite !append_assoc | apply lang_github_pattern; by exists x, y].
Qed.

Example guard_examples :
  map (Regex.search github_pattern)
    ["https://github.com/a/b"; "github.com/a/b/c"; "not-a-url";
     "github.com/a/"; "github.com//b"; "https://gitlab.com/a/b"] =
  [true; true; false; false; false; false].
Proof. vm_compute. reflexivity. Qed.

(** ** Running the handlers symbolically *)

(** The history after a run is the history before it followed by chunks
    of new entries. *)
Lemma since_chunks (w w' : World) (chunks : list (list Entry)) :
  trace w' = fold_left (fun l c => l ++ c) chunks (trace w) ->
  since w w' = concat chunks.
Proof.
  intros Htr. unfold since. rewrite Htr. clear Htr.
  assert (H : forall l, fold_left (fun l c => l ++ c) chunks l = l ++ concat chunks).
  { induction chunks as [|c cs IH]; intros l; simpl.
    - by rewrite app_nil_r.
    - by rewrite IH, <- app_assoc. }
  rewrite H. apply drop_app_length.
Qed.

(** Unfolds a handler down to the next question asked to the
    environment. *)
Ltac run :=
  cbv beta iota zeta delta
    [handle post_deployments put_deployment post_restart delete_deployment
     find_deployment buildAndStartContainer pipeline cleanup
     restartContainer stopContainer
     bind ret throw try_catch lift scope this assign
     perform invoke note save remove Deployment_create Deployment_findOne
     io_emit app_get logger_error res_status res_json fs_existsSync fs_writeFileSync
     fs_rmSync docker_listContainers docker_listImages docker_createContainer
     Object_entries String_match record fst snd trace store now negb
     from_option id
     _id user name repoUrl branch envVars buildCommand startCommand status
     logs containerId url updatedAt
     set_name set_envVars set_buildCommand set_startCommand set_status
     set_logs set_containerId set_url set_updatedAt container_id].

(** Names the outcome of the run [h] and what it added to the history of
    [w0], and hides what is to be proved about them. *)
Ltac start h :=
  let out := fresh "out" in
  let Hrun := fresh "Hrun" in
  let Post := fresh "Post" in
  remember h as out eqn:Hrun; symmetry in Hrun;
  try
    match goal with
    | |- context [since ?w0 ?w'] =>
        lazymatch w' with
        | context [out] =>
            let new := fresh "new" in
            let Hnew := fresh "Hnew" in
            remember (since w0 w') as new eqn:Hnew;
            revert new Hnew
        end
    end;
  pattern out;
  lazymatch goal with |- ?Q out => set (Post := Q) end;
  revert Hrun.

(** The question a stuck run waits on. *)
Ltac scrutinee t :=
  lazymatch t with
  | match ?s with _ => _ end => scrutinee s
  | ?f ?a =>
      lazymatch f with
      | match ?s with _ => _ end => scrutinee s
      | _ => t
      end
  | _ => t
  end.

(** The chunks appended to [tr] in [t]. *)
Ltac chunks_of tr t :=
  lazymatch t with
  | tr => constr:(@nil (list Entry))
  | ?l ++ ?c =>
      let cs := chunks_of tr l in
      constr:(cs ++ [c])
  end.

(** Replaces [new = since w0 w'] by the list of the entries added. *)
Ltac read_new :=
  intros ? ->;
  lazymatch goal with
  | |- context [since ?w0 ?w'] =>
      let tr := eval cbn [trace] in (trace w0) in
      let t := eval cbn [trace fst snd] in (trace w') in
      let cs := chunks_of tr t in
      let cs := eval cbv [app] in cs in
      rewrite (since_chunks w0 w' cs eq_refl);
      cbn [concat app]
  end.

(** At the end of a run: what is to be proved, about the outcome. *)
Ltac finish :=
  lazymatch goal with
  | Post := _ |- _ = ?out -> _ =>
      intros <-; subst Post; cbv beta; try read_new; cbn [fst snd store trace now]
  end.

(** ** Cleanup *)

(** Opens a document into its fields. *)
Ltac open_doc d :=
  let f1 := fresh "doc_id" in
  let f2 := fresh "doc_user" in
  let f3 := fresh "doc_name" in
  let f4 := fresh "doc_repoUrl" in
  let f5 := fresh "doc_branch" in
  let f6 := fresh "doc_envVars" in
  let f7 := fresh "doc_build" in
  let f8 := fresh "doc_start" in
  let f9 := fresh "doc_status" in
  let f10 := fresh "doc_logs" in
  let f11 := fresh "doc_container" in
  let f12 := fresh "doc_url" in
  let f13 := fresh "doc_updated" in
  destruct d as [f1 f2 f3 f4 f5 f6 f7 f8 f9 f10 f11 f12 f13].

(** Settles the next question: from what is known, or by cases. *)
Ltac answer_basic :=
  lazymatch goal with
  | |- ?h = _ -> _ =>
      let q := scrutinee h in
      lazymatch h with
      | q => fail "the run has ended"
      | _ =>
          first
            [ lazymatch goal with H : q = _ |- _ => rewrite H end
            | lazymatch q with
              | fails ?e ?tr ?c =>
                  lazymatch goal with
                  | Hst : store_reliable e |- _ => rewrite (Hst tr c eq_refl)
                  end
              | String.eqb ?x ?x => rewrite (String.eqb_refl x)
              end
            | destruct q eqn:?;
              repeat match goal with d : Deployment |- _ => open_doc d end ]
      end
  end.

(** The guarded cleanup returns normally whatever the runtime answers; it
    leaves the document and the store as they were. *)
Lemma guarded_cleanup_spec (env : Environment) (u : User) (d : Deployment) (w : World) :
  exists new,
    guarded_cleanup env u (d, w) =
      (Ok tt, (d, {| store := store w; trace := trace w ++ new;
                     now := length new + now w |})) /\
    cleanup_trace new.
Proof.
  destruct w as [st tr t0].
  start (guarded_cleanup env u (d, {| store := st; trace := tr; now := t0 |})).
  unfold guarded_cleanup.
  run; repeat (answer_basic; run).
  all: intros <-; subst Post; cbv beta; cbn [store trace now].
  all: rewrite <- ?app_assoc; cbn [app].
  all: lazymatch goal with
       | |- exists new, (_, (_, {| store := _; trace := _ ++ ?l; now := _ |})) = _ /\ _ =>
           exists l; split; [reflexivity|]
       end.
  all: unfold cleanup_trace; cbn.
  all: repeat split; try reflexivity.
  all: intros c' e'; intuition congruence.
Qed.

(** A cleanup adds nothing to an observation that ignores its calls. *)
Lemma cleanup_unobserved {A} (f : Entry -> list A) (new : list Entry) :
  (forall e, is_cleanup (call e) = true -> f e = []) ->
  cleanup_trace new -> flat_map f new = [].
Proof.
  intros Hf (_ & Hall & _).
  induction new as [|e new IH]; [reflexivity|].
  cbn in Hall. apply andb_true_iff in Hall as [He Hall].
  cbn [flat_map]. by rewrite (Hf e He), IH.
Qed.

Lemma cleanup_stage_failure (new : list Entry) :
  cleanup_trace new -> stage_failure new = None.
Proof.
  intros (_ & Hall & _).
  induction new as [|[c o] new IH]; [reflexivity|].
  cbn in Hall. apply andb_true_iff in Hall as [He Hall].
  cbn. destruct o; [by apply IH|].
  destruct c; try discriminate; by apply IH.
Qed.

Lemma cleanup_after_stage_failure (new : list Entry) :
  cleanup_trace new -> after_stage_failure new = [].
Proof.
  intros (_ & Hall & _).
  induction new as [|[c o] new IH]; [reflexivity|].
  cbn in Hall. apply andb_true_iff in Hall as [He Hall].
  cbn. destruct o; [by apply IH|].
  destruct c; try discriminate; by apply IH.
Qed.

Lemma stage_failure_app (l k : list Entry) :
  stage_failure (l ++ k) =
  match stage_failure l with
  | Some e => Some e
  | None => stage_failure k
  end.
Proof.
  induction l as [|[c o] l IH]; [reflexivity|].
  cbn. destruct o; [exact IH|]. by destruct (is_stage c).
Qed.

Lemma after_stage_failure_app (l k : list Entry) :
  after_stage_failure (l ++ k) =
  match stage_failure l with
  | Some _ => after_stage_failure l ++ k
  | None => after_stage_failure k
  end.
Proof.
  induction l as [|[c o] l IH]; [reflexivity|].
  cbn. destruct o; [exact IH|]. by destruct (is_stage c).
Qed.

(** The first call of a cleanup is on the runtime: it lists the
    containers. *)
Lemma cleanup_invoked (new rest : list Entry) :
  cleanup_trace new ->
  head (runtime_calls (new ++ rest)) = Some DockerListContainers.
Proof.
  intros (Hhd & _ & _). destruct new as [|[c o] new]; [discriminate|].
  cbn in Hhd. injection Hhd as ->. reflexivity.
Qed.

(** Settles the next question: from what is known, by the specification of
    the guarded cleanup, or by cases. *)
Ltac answer :=
  lazymatch goal with
  | |- ?h = _ -> _ =>
      let q := scrutinee h in
      lazymatch q with
      | guarded_cleanup ?e ?u (?d, ?w) =>
          let cleaned := fresh "cleaned" in
          let Hcleaned := fresh "Hcleaned" in
          destruct (guarded_cleanup_spec e u d w) as (cleaned & -> & Hcleaned)
      | _ => answer_basic
      end
  end.

Ltac explore := run; repeat (answer; run).

(** Evaluates the observations on the entries of a run, through the
    chunks that cleanups added. *)
Ltac unobserved :=
  match goal with
  | H : cleanup_trace ?n |- context [flat_map ?f ?n] =>
      rewrite (cleanup_unobserved f n ltac:(by intros [[] ?]) H)
  | H : cleanup_trace ?n |- context [stage_failure ?n] =>
      rewrite (cleanup_stage_failure n H)
  | H : cleanup_trace ?n |- context [after_stage_failure ?n] =>
      rewrite (cleanup_after_stage_failure n H)
  | H : cleanup_trace ?n |- context [head (flat_map runtime_call (?n ++ ?k))] =>
      change (flat_map runtime_call (n ++ k)) with (runtime_calls (n ++ k));
      rewrite (cleanup_invoked n k H)
  end.

Ltac evaluate :=
  cbn [flat_map app stage_failure after_stage_failure head
       persisted_status persisted emitted status_set rejection stage_call
       runtime_call existence_check file_written dir_removed image_named
       is_stage is_runtime call outcome status Image In].

Ltac observe :=
  unfold saved_statuses, published, responses, rejections, stage_calls,
    runtime_calls, existence_checks, files_written, dirs_removed, image_tags;
  evaluate;
  repeat
    (first
       [ unobserved
       | rewrite flat_map_app
       | rewrite stage_failure_app
       | rewrite after_stage_failure_app ];
     evaluate).

(** ** The guard of the creation route *)

(** C10. A creation request without [repoUrl] makes the route throw a
    [TypeError] at the guard itself: nothing is validated, no status is
    set, no record is created, no call is made. The guard accepts the
    strings that contain [github.com/<x>/<y>], with [x] and [y] non-empty
    runs of characters that [.] matches, and no others: a rejected string
    gets status 400 and the validation error, with the store untouched; an
    accepted one reaches [Deployment.create]. *)
Theorem create_guard (env : Environment) (req : Request) (w : World) :
  (body_repoUrl (req_body req) = None ->
   exists msg, post_deployments env req w = (Throw (TypeError msg), w)) /\
  (forall s, Regex.search github_pattern s = true <-> github_shaped s) /\
  (forall s,
     body_repoUrl (req_body req) = Some s -> ~ github_shaped s ->
     post_deployments env req w =
       (Throw (Error "Invalid GitHub repository URL"),
        record (ResStatus 400) (Returned VUnit) w)) /\
  (forall s,
     body_repoUrl (req_body req) = Some s -> github_shaped s ->
     exists d,
       head (calls (since w (snd (post_deployments env req w)))) =
         Some (DeploymentCreate d)).
Proof.
  split; [|split; [|split]].
  - intros Hnone. unfold post_deployments, bind. rewrite Hnone. cbn. eauto.
  - apply guard_accepts.
  - intros s Hs Hbad. unfold post_deployments, bind. rewrite Hs. cbn.
    destruct (Regex.search github_pattern s) eqn:Hm; [|reflexivity].
    by apply guard_accepts in Hm.
  - intros s Hs Hgood. apply guard_accepts in Hgood.
    destruct w as [st tr t0].
    start (post_deployments env req {| store := st; trace := tr; now := t0 |}).
    unfold post_deployments, bind at 1. rewrite Hs. cbn [String_match ret]. rewrite Hgood.
    cbn [negb].
    run. answer. 
    + run. finish. cbn. eauto.
    + explore; finish; cbn; eauto.
Qed.

(** A request without [repoUrl] against any store; a request whose
    [repoUrl] is not a repository address; one whose [repoUrl] is. *)
Lemma create_guard_witness :
  (exists msg,
     post_deployments Scenario.happy Scenario.id_request initial_world =
       (Throw (TypeError msg), initial_world)) /\
  Regex.search github_pattern "not-a-url" = false /\
  exists d,
    head (calls (since initial_world
                   (snd (post_deployments Scenario.happy Scenario.create_request
                           initial_world)))) =
      Some (DeploymentCreate d).
Proof.
  split; [|split].
  - apply (proj1 (create_guard Scenario.happy Scenario.id_request initial_world)).
    reflexivity.
  - vm_compute. reflexivity.
  - apply (proj2 (proj2 (proj2 (create_guard Scenario.happy Scenario.create_request
                                  initial_world)))
             "https://github.com/a/b").
    + reflexivity.
    + apply guard_accepts. vm_compute. reflexivity.
Defined.

(** ** The worker: failure of a stage *)

Lemma since_app (w : World) (st : gmap string Deployment) (new : list Entry) (t : nat) :
  since w {| store := st; trace := trace w ++ new; now := t |} = new.
Proof. unfold since. cbn [trace]. apply drop_app_length. Qed.

(** C3. The cleanup that follows a failed stage never raises: whatever
    the runtime answers to the container lookup, stop and removal and to
    the image lookup and removal, the guarded cleanup returns normally,
    and the failure it met is the last thing it logs. So the worker
    throws exactly the error that its pipeline threw. *)
Theorem cleanup_never_masks_the_stage_error
    (env : Environment) (u : User) (d : Deployment) (w : World) :
  (exists w',
     guarded_cleanup env u (d, w) = (Ok tt, (d, w')) /\
     forall c e,
       In (c, e) (rejections (since w w')) ->
       last (calls (since w w')) =
         Some (LoggerError ("Cleanup failed: " +:+ message e))) /\
  (forall e,
     fst (buildAndStartContainer env u (d, w)) = Throw e <->
     fst (pipeline env u (d, w)) = Throw e).
Proof.
  split.
  - destruct (guarded_cleanup_spec env u d w) as (new & Hrun & _ & _ & Hlog).
    eexists. split; [exact Hrun|].
    rewrite since_app. exact Hlog.
  - intros e. unfold buildAndStartContainer, try_catch, bind.
    destruct (pipeline env u (d, w)) as [[c|e'] [d1 w1]]; cbn [fst]; [done|].
    destruct (guarded_cleanup_spec env u d1 w1) as (new & -> & _).
    reflexivity.
Qed.

(** The container cannot be created and, during cleanup, the image cannot
    be removed: the worker throws the error of the creation. *)
Lemma cleanup_never_masks_the_stage_error_witness :
  fst (buildAndStartContainer Scenario.failing_cleanup Scenario.alice
         (Scenario.new_deployment, initial_world)) =
    Throw (Error "(HTTP code 409) conflict - name in use").
Proof.
  apply (proj2 (cleanup_never_masks_the_stage_error Scenario.failing_cleanup
                  Scenario.alice Scenario.new_deployment initial_world)).
  vm_compute. reflexivity.
Defined.
(** ** Start: failure of the pipeline *)




(** ** Start: the statuses persisted and the events published *)

(** C1, as stated, fails. The pipeline runs on a deployment that the
    creation route persisted as initializing, and nothing fails: it
    returns the container and has persisted cloning, building, starting
    and running, in this order, but it has published none of them. The
    worker has no access to the socket server. *)
Lemma pipeline_publishes_no_transition :
  let w := Scenario.world_with Scenario.new_deployment in
  let out := buildAndStartContainer Scenario.happy Scenario.alice
               (Scenario.new_deployment, w) in
  let new := since w (snd (snd out)) in
  fst out = Ok {| container_id := "0123456789abcdef0123" |} /\
  saved_statuses new = [cloning; building; starting; running] /\
  published new = [] /\
  ~ publishes_every_transition Scenario.happy Scenario.alice
      Scenario.new_deployment w.
Proof.
  cbv zeta. split; [|split; [|split]]; try (vm_compute; reflexivity).
  unfold publishes_every_transition. cbv zeta.
  intros H. apply (proj1 (List.Forall_forall _ _)) with (x := cloning) in H.
  - vm_compute in H. discriminate.
  - vm_compute. left. reflexivity.
Qed.

(** The statuses [l] are an initial part of the sequence of a Start, with
    [failed] after it when [thrown]. *)
Ltac initial_part :=
  first
    [ exists 0; first [left; reflexivity | right; reflexivity]
    | exists 1; first [left; reflexivity | right; reflexivity]
    | exists 2; first [left; reflexivity | right; reflexivity]
    | exists 3; first [left; reflexivity | right; reflexivity]
    | exists 4; first [left; reflexivity | right; reflexivity]
    | exists 5; first [left; reflexivity | right; reflexivity] ].

(** C1, amended. A run of the pipeline that returns has persisted
    cloning, building, starting and running, in this order and with
    nothing in between, each by a save that follows the assignment; the
    record stored at the end is the running document; and it has published
    nothing. The creation route persists initializing by the creation,
    before anything else, whenever the request is valid and the creation
    goes through: in every run, the statuses it persists are an initial
    part of initializing, cloning, building, starting, running, followed
    by failed or not, and no event that it publishes carries cloning,
    building, starting or running. *)
Theorem successful_start_statuses (env : Environment) :
  (forall u d w c,
     let out := buildAndStartContainer env u (d, w) in
     let new := since w (snd (snd out)) in
     fst out = Ok c ->
     saved_statuses new = [cloning; building; starting; running] /\
     published new = [] /\
     store (snd (snd out)) !! _id d = Some (fst (snd out)) /\
     status (fst (snd out)) = running) /\
  (forall req w,
     let new := since w (snd (post_deployments env req w)) in
     (exists n,
        saved_statuses new = take n start_sequence \/
        saved_statuses new = take (S n) start_sequence ++ [failed]) /\
     Forall (fun '(room, event, p) =>
               room = user_id (req_user req) /\ event = "deployment_update" /\
               (payload_status p = Some initializing \/
                payload_status p = Some failed))
       (published new) /\
     (forall s,
        body_repoUrl (req_body req) = Some s ->
        Regex.search github_pattern s = true ->
        (forall d, fails env (trace w) (DeploymentCreate d) = None) ->
        head (saved_statuses new) = Some initializing)).
Proof.
  split.
  - intros u d [st tr t0] c. cbv zeta. open_doc d. cbn [_id].
    match goal with
    | |- context [buildAndStartContainer env u ?s] =>
        start (buildAndStartContainer env u s)
    end.
    explore; finish; observe; try discriminate.
    all: intros _; split; [reflexivity|]; split; [reflexivity|].
    all: split; [apply lookup_insert_eq | reflexivity].
  - intros req [st tr t0]. cbv zeta.
    start (post_deployments env req {| store := st; trace := tr; now := t0 |}).
    explore; finish; observe.
    all: split; [unfold start_sequence; cbn [take app]; initial_part|].
    all: split;
      [ repeat
          first
            [ apply List.Forall_nil
            | apply List.Forall_cons;
              [ split; [reflexivity|]; split; [reflexivity|];
                first [left; reflexivity | right; reflexivity] |] ] |].
    all: intros addr Hs Hm Hcreate; cbn [trace] in Hcreate.
    all: first
           [ reflexivity
           | congruence
           | match goal with
             | H : Some _ = Some _ |- _ => injection H as <-
             end; congruence ].
Qed.

(** Nothing fails on the runtime, the store or the file system. *)
Lemma successful_start_statuses_witness :
  let w := Scenario.world_with Scenario.new_deployment in
  let out := buildAndStartContainer Scenario.happy Scenario.alice
               (Scenario.new_deployment, w) in
  let new := since w (snd (snd out)) in
  saved_statuses new = [cloning; building; starting; running] /\
  published new = [] /\
  store (snd (snd out)) !! "64b7f0c2a1" = Some (fst (snd out)) /\
  status (fst (snd out)) = running.
Proof.
  cbv zeta.
  apply (proj1 (successful_start_statuses Scenario.happy) Scenario.alice
           Scenario.new_deployment
           (Scenario.world_with Scenario.new_deployment)
           {| container_id := "0123456789abcdef0123" |}).
  vm_compute. reflexivity.
Defined.
(** ** The build descriptor and the image tag *)

Lemma trimEnd_app_blank (s t : string) :
  Js.trimEnd t = EmptyString -> Js.trimEnd (s +:+ t) = Js.trimEnd s.
Proof.
  intros Ht. induction s as [|a s IH]; [exact Ht|].
  rewrite append_cons. cbn [Js.trimEnd]. by rewrite IH.
Qed.

(** Trimming the template leaves the five lines of the descriptor, without
    the white space that may end the start command. *)
Lemma trim_dockerfileContent (d : Deployment) :
  Js.trim (dockerfileContent d) =
  Js.trimEnd (descriptor (buildCommand d) (startCommand d)).
Proof.
  unfold Js.trim.
  assert (Hstart : Js.trimStart (dockerfileContent d) =
                   descriptor (buildCommand d) (startCommand d) +:+
                   (Js.nl +:+ "      ")).
  { unfold descriptor. rewrite !append_assoc. reflexivity. }
  rewrite Hstart. apply trimEnd_app_blank. reflexivity.
Qed.

Example descriptor_of_new_deployment :
  Js.trim (dockerfileContent Scenario.new_deployment) =
  descriptor "npm install" "npm start".
Proof. vm_compute. reflexivity. Qed.

Lemma happy_reliable : reliable Scenario.happy.
Proof. intros tr c. reflexivity. Qed.

(** C8. Once the record is saved as cloning and the repository cloned,
    the worker asks [fs.existsSync] once, about the Dockerfile of the
    workspace, and writes that file exactly when the answer is no. What it
    writes is the descriptor: [FROM node:14], [WORKDIR /app], [COPY . .],
    [RUN] with the build command and [CMD] with the start command, trimmed
    at the end. When no call fails and the deployment has its [envVars],
    the image is built from the workspace under the tag [deploybot-]
    followed by the deployment id, and the container is created from that
    tag. In no run is another file checked or written, or another tag
    used. *)
Theorem descriptor_synthesized_when_absent
    (env : Environment) (u : User) (d : Deployment) (w : World) :
  let out := buildAndStartContainer env u (d, w) in
  let new := since w (snd (snd out)) in
  let repoDir := path_join (REPOS_DIR env) (_id d) in
  let dockerfile := path_join repoDir "Dockerfile" in
  let text := Js.trimEnd (descriptor (buildCommand d) (startCommand d)) in
  let tag := "deploybot-" +:+ _id d in
  let saved :=
    {| call := DeploymentSave (set_logs "Cloning repository..." (set_status cloning d));
       outcome := Returned VUnit |} in
  let cloned :=
    {| call := GitClone (repoUrl d) repoDir ["--branch"; branch d; "--depth"; "1"];
       outcome := Returned VUnit |} in
  let present := exists_sync env ((trace w ++ [saved]) ++ [cloned]) dockerfile in
  (fails env (trace w) (call saved) = None ->
   fails env (trace w ++ [saved]) (call cloned) = None ->
   existence_checks new = [(dockerfile, present)] /\
   files_written new = if present then [] else [(dockerfile, text)]) /\
  (reliable env -> is_Some (envVars d) ->
   image_tags new = [tag; tag] /\
   exists buildargs c,
     In (DockerBuildImage repoDir tag buildargs) (calls new) /\
     fst out = Ok c) /\
  files_written new =
    flat_map (fun '(p, found) => if (found : bool) then [] else [(p, text)])
      (existence_checks new) /\
  Forall (fun '(p, _) => p = dockerfile) (existence_checks new) /\
  Forall (fun t => t = tag) (image_tags new).
Proof.
  destruct w as [st tr t0]. cbv zeta.
  open_doc d.
  cbv beta iota delta
    [buildCommand startCommand _id repoUrl branch envVars trace call
     set_logs set_status status logs name user containerId url updatedAt].
  match goal with
  | |- context [buildAndStartContainer env u ?s] =>
      start (buildAndStartContainer env u s)
  end.
  explore; finish; observe.
  all: cbn [flat_map app calls map call];
    rewrite ?trim_dockerfileContent; cbn [buildCommand startCommand].
  all: split;
    [ intros Hsave Hclone;
      first
        [ congruence
        | repeat match goal with
                 | H : exists_sync _ _ _ = _ |- _ => rewrite H; clear H
                 end;
          split; reflexivity ] |].
  all: split;
    [ intros Hall Hvars;
      first
        [ by destruct Hvars
        | match goal with
          | H : fails _ _ _ = Some _ |- _ => rewrite Hall in H; discriminate H
          end
        | split; [reflexivity|]; eexists _, _; split; [|reflexivity];
          cbn [In]; by eauto 10 ] |].
  all: repeat split; repeat constructor.
Qed.

(** Nothing fails, and the cloned repository has no Dockerfile: the
    descriptor is written and the image built under the deployment's
    tag. *)
Lemma descriptor_synthesized_when_absent_witness :
  let w := Scenario.world_with Scenario.new_deployment in
  let new := since w (snd (snd (buildAndStartContainer Scenario.happy
                                  Scenario.alice (Scenario.new_deployment, w)))) in
  (existence_checks new = [("/app/repos/64b7f0c2a1/Dockerfile", false)] /\
   files_written new =
     [("/app/repos/64b7f0c2a1/Dockerfile",
       Js.trimEnd (descriptor "npm install" "npm start"))]) /\
  image_tags new = ["deploybot-64b7f0c2a1"; "deploybot-64b7f0c2a1"].
Proof.
  cbv zeta.
  pose proof (descriptor_synthesized_when_absent Scenario.happy Scenario.alice
                Scenario.new_deployment
                (Scenario.world_with Scenario.new_deployment)) as H.
  cbv zeta in H. destruct H as (Hcheck & Hbuild & _).
  split.
  - exact (Hcheck eq_refl eq_refl).
  - exact (proj1 (Hbuild happy_reliable ltac:(by eexists))).
Defined.

(** ** Stop *)

(** C4, as stated, fails. The deployment has a container reference, the
    container was removed behind the server's back, and the runtime
    answers 404 to the stop request: Stop logs the error and throws it. *)
Lemma stop_raises_when_the_container_is_gone :
  Scenario.containers_listed = [] /\
  fst (stopContainer Scenario.container_gone
         (Scenario.running_deployment, initial_world)) =
    Throw (Error "(HTTP code 404) no such container") /\
  ~ stop_succeeds Scenario.container_gone Scenario.running_deployment initial_world.
Proof.
  split; [reflexivity|]. split; [vm_compute; reflexivity|].
  unfold stop_succeeds. vm_compute. discriminate.
Qed.

(** C4, amended. Stop on a deployment without a container reference
    succeeds and does nothing. With a container reference, Stop succeeds
    when every call it makes succeeds; the first call that fails, whatever
    the failure (a missing container included), ends it: the error is
    logged and thrown to the caller. *)
Theorem stop_outcome (env : Environment) (d : Deployment) (w : World) :
  let out := stopContainer env (d, w) in
  let new := since w (snd (snd out)) in
  (Js.truthy (containerId d) = false -> fst out = Ok tt /\ new = []) /\
  (rejections new = [] -> fst out = Ok tt) /\
  (forall c e,
     In (c, e) (rejections new) ->
     fst out = Throw e /\
     last (calls new) = Some (LoggerError ("Error stopping container: " +:+ message e))).
Proof.
  destruct w as [st tr t0]. cbv zeta. open_doc d. cbn [containerId].
  match goal with
  | |- context [stopContainer env ?s] => start (stopContainer env s)
  end.
  explore; finish; observe.
  all: split; [|split]; try done; try (intros; congruence).
  all: cbn [calls map last call]; intros c' e' Hin; cbn [In] in Hin.
  all: intuition congruence.
Qed.

Lemma stop_outcome_witness :
  let out := stopContainer Scenario.happy (Scenario.failed_deployment, initial_world) in
  fst out = Ok tt /\ since initial_world (snd (snd out)) = [].
Proof.
  apply (proj1 (stop_outcome Scenario.happy Scenario.failed_deployment initial_world)).
  reflexivity.
Defined.
(** ** Terminate *)

Lemma container_gone_store_reliable : store_reliable Scenario.container_gone.
Proof. intros tr c Hc. by destruct c. Qed.

(** Replaces each [since w0 w'] on worlds whose histories are known by
    the list of the entries added. *)
Ltac read_since :=
  repeat
    match goal with
    | |- context [since ?w0 ?w'] =>
        let tr := eval cbn [trace] in (trace w0) in
        let t := eval cbn [trace fst snd] in (trace w') in
        let cs := chunks_of tr t in
        let cs := eval cbv [app] in cs in
        rewrite (since_chunks w0 w' cs eq_refl);
        cbn [concat app]
    end.

(** Runs, in what is to be proved, a computation on which the questions
    have all been settled. *)
Ltac rerun :=
  run;
  repeat
    (match goal with
     | H : ?q = _ |- context [match ?q with _ => _ end] => rewrite H
     end;
     run).

(** C5, as stated, fails. The deployment runs, its workspace exists, and
    its container is gone: Stop fails at its first call, Terminate logs
    the failure and removes the record, and the workspace directory is
    never removed. The same holds for a deployment whose build failed: it
    has no container reference, Stop returns at once, and its workspace
    stays. *)
Lemma terminate_leaves_the_workspace :
  let env := Scenario.container_gone in
  let req := Scenario.id_request in
  let w := Scenario.world_with Scenario.running_deployment in
  let w' := snd (delete_deployment env req w) in
  exists_sync env [] "/app/repos/64b7f0c2a1" = true /\
  store w' !! "64b7f0c2a1" = None /\
  dirs_removed (since w w') = [] /\
  ~ terminate_removes_workspace env req w /\
  ~ terminate_removes_workspace Scenario.happy req
      (Scenario.world_with Scenario.failed_deployment).
Proof.
  cbv zeta. repeat split; try (vm_compute; reflexivity).
  - unfold terminate_removes_workspace. vm_compute. tauto.
  - unfold terminate_removes_workspace. vm_compute. tauto.
Qed.

(** C5, amended. For an existing deployment whose store answers,
    Terminate invokes Stop on the record it found, right after the
    lookup; whether Stop returned or threw, it then removes the record,
    and a failure of Stop is logged in between. Nothing is called on the
    runtime and nothing is stored after the removal. The workspace
    directory is removed by Stop and by nothing else: it is removed when
    the deployment has a container reference, no call fails and the
    directory exists, and only when the deployment has a container
    reference and no call fails. *)
Theorem terminate_removes_the_record
    (env : Environment) (req : Request) (w : World) (d : Deployment) :
  store_reliable env ->
  store w !! req_params_id req = Some d ->
  _id d = req_params_id req ->
  user d = user_id (req_user req) ->
  let lookup :=
    {| call := DeploymentFindOne (req_params_id req) (user_id (req_user req));
       outcome := Returned (VDoc (Some d)) |} in
  let found := record (call lookup) (outcome lookup) w in
  let stopped := stopContainer env (d, found) in
  let out := delete_deployment env req w in
  let new := since w (snd out) in
  let repoDir := path_join (REPOS_DIR env) (_id d) in
  (exists logged rest,
     new = lookup :: since found (snd (snd stopped)) ++ logged ++
           {| call := DeploymentRemove d; outcome := Returned VUnit |} :: rest /\
     match fst stopped with
     | Ok _ => logged = []
     | Throw e =>
         calls logged = [LoggerError ("Error stopping container: " +:+ message e)]
     end /\
     runtime_calls rest = [] /\ saved_statuses rest = []) /\
  store (snd out) !! req_params_id req = None /\
  (forall c, containerId d = Some c -> Js.truthy (Some c) = true ->
     head (runtime_calls new) = Some (ContainerStop c)) /\
  (Js.truthy (containerId d) = false -> runtime_calls new = []) /\
  (Js.truthy (containerId d) = true ->
   rejections new = [] ->
   (forall tr, exists_sync env tr repoDir = true) ->
   dirs_removed new = [repoDir]) /\
  (dirs_removed new <> [] ->
   Js.truthy (containerId d) = true /\ rejections new = []).
Proof.
  intros Hst Hd Hid Hu. destruct w as [st tr t0]. cbv zeta.
  open_doc d. cbn [_id user store containerId call outcome] in *. subst.
  start (delete_deployment env req {| store := st; trace := tr; now := t0 |}).
  explore; finish.
  all: rerun; cbn [fst snd]; read_since.
  all: split;
    [ first [ exists []; eexists; split; [reflexivity|]
            | eexists [_]; eexists; split; [reflexivity|] ];
      split; [reflexivity|]; split; reflexivity |].
  all: split; [apply lookup_delete_eq|].
  all: observe.
  all: split;
    [ intros c' Hc Ht;
      first [by rewrite Hc | rewrite Hc in *; congruence] |].
  all: split; [intros Hc; try reflexivity; try discriminate|].
  all: split;
    [ intros Hc Hrej Hexists; try reflexivity; try discriminate;
      try (rewrite Hexists in *; discriminate) |].
  all: intros Hrm; try (by destruct Hrm); split; reflexivity.
Qed.

(** A running deployment whose container is gone: Stop throws at its
    first call, and the record is removed all the same. *)
Lemma terminate_removes_the_record_witness :
  let env := Scenario.container_gone in
  let req := Scenario.id_request in
  let w := Scenario.world_with Scenario.running_deployment in
  store (snd (delete_deployment env req w)) !! "64b7f0c2a1" = None /\
  head (runtime_calls (since w (snd (delete_deployment env req w)))) =
    Some (ContainerStop "0123456789abcdef0123").
Proof.
  cbv zeta.
  pose proof (terminate_removes_the_record Scenario.container_gone
                Scenario.id_request
                (Scenario.world_with Scenario.running_deployment)
                Scenario.running_deployment
                container_gone_store_reliable eq_refl eq_refl eq_refl) as H.
  cbv zeta in H. destruct H as (_ & H2 & H3 & _).
  split; [exact H2|]. exact (H3 "0123456789abcdef0123" eq_refl eq_refl).
Defined.
(** ** Restart *)

Lemma happy_store_reliable : store_reliable Scenario.happy.
Proof. intros tr c Hc. reflexivity. Qed.

(** C7, on the code. Restart on a deployment without a container
    reference: the worker throws [Container ID not found] before any call,
    as the claim says, and leaves the record as it is; persisting failed
    is the part of the catch block of the restart route. In the
    application of [server.js] the route does not get as far as the
    worker: with no socket server registered and the store answering, it
    persists the record as restarting and throws a [TypeError] at the emit
    that follows. The status that stays persisted is restarting, not
    failed; nothing is called on the runtime and no status code is set. *)
Theorem restart_without_container_stays_restarting
    (env : Environment) (req : Request) (w : World) (d : Deployment) :
  (Js.truthy (containerId d) = false ->
   forall w0,
     restartContainer env (d, w0) =
       (Throw (Error "Container ID not found"), (d, w0))) /\
  (unwired req ->
   store_reliable env ->
   store w !! req_params_id req = Some d ->
   _id d = req_params_id req ->
   user d = user_id (req_user req) ->
   let out := post_restart env req w in
   let new := since w (snd out) in
   fst out =
     Throw (TypeError "Cannot read properties of undefined (reading 'to')") /\
   calls new =
     [DeploymentFindOne (req_params_id req) (user_id (req_user req));
      DeploymentSave (set_status restarting d)] /\
   rejections new = [] /\
   store (snd out) !! req_params_id req =
     Some (set_updatedAt (clock env (S (now w))) (set_status restarting d))).
Proof.
  split.
  { intros Hc w0. unfold restartContainer, bind, this. rewrite Hc. reflexivity. }
  intros Hio Hst Hd Hid Hu. unfold unwired, app_get in Hio.
  destruct w as [st tr t0]. cbv zeta.
  open_doc d. cbn [_id user store containerId now] in *. subst.
  start (post_restart env req {| store := st; trace := tr; now := t0 |}).
  explore; finish; observe.
  split; [reflexivity|]. split; [reflexivity|]. split; [reflexivity|].
  apply lookup_insert_eq.
Qed.

(** A deployment whose build failed, and so without a container, is
    restarted through the application of [server.js]. *)
Lemma restart_without_container_stays_restarting_witness :
  let w := Scenario.world_with Scenario.failed_deployment in
  let out := post_restart Scenario.happy Scenario.id_request w in
  restartContainer Scenario.happy (Scenario.failed_deployment, w) =
    (Throw (Error "Container ID not found"), (Scenario.failed_deployment, w)) /\
  fst out =
    Throw (TypeError "Cannot read properties of undefined (reading 'to')") /\
  exists d', store (snd out) !! "64b7f0c2a1" = Some d' /\ status d' = restarting.
Proof.
  cbv zeta.
  pose proof (restart_without_container_stays_restarting Scenario.happy Scenario.id_request
                (Scenario.world_with Scenario.failed_deployment)
                Scenario.failed_deployment) as [Hworker Hroute].
  split; [exact (Hworker eq_refl _)|].
  specialize (Hroute eq_refl happy_store_reliable eq_refl eq_refl eq_refl).
  cbv zeta in Hroute. destruct Hroute as (H1 & _ & _ & H4).
  split; [exact H1|]. eexists. split; [exact H4 | reflexivity].
Defined.

(** ** Update *)

(** A field is as it was, or as the request supplies it. *)
Ltac supplied :=
  repeat
    match goal with
    | |- context [match ?x with Some _ => _ | None => _ end] => destruct x eqn:?
    | H : ?x = Some _ |- context [?x] => rewrite H
    end;
  cbn in *; try discriminate;
  first
    [ reflexivity
    | left; reflexivity
    | right; reflexivity
    | right; split; [|reflexivity];
      lazymatch goal with
      | H : Js.truthy ?x = true |- is_Some ?x =>
          destruct x; [eauto | discriminate H]
      | |- is_Some (Some _) => eauto
      end ].

(** C9. Update on an existing deployment leaves its id, owner, status,
    logs, container reference, url, repository and branch as they were;
    [envVars], [buildCommand], [startCommand] and [name] change only to
    the value that the request supplies. No other record changes. Every
    event it publishes is a [deployment_update] to the owner's room that
    carries the deployment's unchanged status, and a 200 response comes
    with exactly one. *)
Theorem update_changes_only_supplied_fields
    (env : Environment) (req : Request) (w : World) (d : Deployment) :
  store w !! req_params_id req = Some d ->
  _id d = req_params_id req ->
  user d = user_id (req_user req) ->
  let out := put_deployment env req w in
  let new := since w (snd out) in
  let body := req_body req in
  (exists d',
     store (snd out) !! req_params_id req = Some d' /\
     _id d' = _id d /\ user d' = user d /\ status d' = status d /\
     logs d' = logs d /\ containerId d' = containerId d /\ url d' = url d /\
     repoUrl d' = repoUrl d /\ branch d' = branch d /\
     (envVars d' = envVars d \/
      is_Some (body_envVars body) /\ envVars d' = body_envVars body) /\
     (buildCommand d' = buildCommand d \/
      body_buildCommand body = Some (buildCommand d')) /\
     (startCommand d' = startCommand d \/
      body_startCommand body = Some (startCommand d')) /\
     (name d' = name d \/
      is_Some (body_name body) /\ name d' = body_name body)) /\
  (forall k, k <> req_params_id req -> store (snd out) !! k = store w !! k) /\
  Forall (fun '(room, event, p) =>
            room = user_id (req_user req) /\ event = "deployment_update" /\
            deploymentId p = req_params_id req /\
            payload_status p = Some (status d))
    (published new) /\
  (In 200 (responses new) -> length (published new) = 1).
Proof.
  intros Hd Hid Hu. destruct w as [st tr t0]. cbv zeta.
  open_doc d. cbn [_id user store status logs containerId url repoUrl branch
                   envVars buildCommand startCommand name] in *. subst.
  start (put_deployment env req {| store := st; trace := tr; now := t0 |}).
  explore; finish; observe.
  all: split; [eexists; split;
                 [first [apply lookup_insert_eq | eassumption]|];
               cbn; repeat split; supplied|].
  all: split; [intros k Hk; by rewrite ?lookup_insert_ne|].
  all: split; [repeat constructor|].
  all: cbn; intuition (try discriminate).
Qed.

Lemma update_changes_only_supplied_fields_witness :
  let out := put_deployment Scenario.happy Scenario.id_request
               (Scenario.world_with Scenario.running_deployment) in
  exists d',
    store (snd out) !! "64b7f0c2a1" = Some d' /\
    status d' = running /\ buildCommand d' = "npm ci".
Proof.
  cbv zeta.
  pose proof (update_changes_only_supplied_fields Scenario.happy
                Scenario.id_request
                (Scenario.world_with Scenario.running_deployment)
                Scenario.running_deployment eq_refl eq_refl eq_refl) as H.
  cbv zeta in H. destruct H as ((d' & H1 & _ & _ & H2 & _) & _).
  exists d'. split; [exact H1|]. split; [exact H2|].
  vm_compute in H1. by injection H1 as <-.
Defined.

(** ** The address of a running deployment *)

Lemma sound_empty (env : Environment) : sound env ∅.
Proof. intros id d H. by rewrite lookup_empty in H. Qed.

Lemma sound_insert (env : Environment) (st : gmap string Deployment)
    (k : string) (d : Deployment) :
  sound env st -> _id d = k -> consistent env d -> sound env (<[k:=d]> st).
Proof.
  intros Hst Hk Hd id d' H. rewrite lookup_insert in H.
  case_decide; [|by apply Hst].
  injection H as <-. subst. done.
Qed.

Lemma sound_delete (env : Environment) (st : gmap string Deployment) (k : string) :
  sound env st -> sound env (delete k st).
Proof.
  intros Hst id d H. rewrite lookup_delete in H.
  case_decide; [discriminate | by apply Hst].
Qed.

(** A document is consistent: by its fields, or because the record it
    comes from is. *)
Ltac consistency :=
  lazymatch goal with
  | |- consistent _ _ =>
      split; cbn [status containerId url];
      [ intros Hrun; try discriminate Hrun;
        first
          [ by eauto
          | lazymatch goal with
            | H : Js.truthy ?x = true |- is_Some ?x =>
                destruct x; [by eauto | discriminate H]
            end
          | lazymatch goal with
            | Hold : consistent _ _ |- _ => by apply (proj1 Hold)
            end ]
      | intros c Hc; try discriminate Hc;
        first
          [ congruence
          | lazymatch goal with
            | Hold : consistent _ _ |- _ => by apply (proj2 Hold)
            end ] ]
  end.

(** What a leaf of a handler's run leaves in the store is sound. *)
Ltac soundness :=
  repeat
    match goal with
    | Hst : sound ?e ?st, H : ?st !! _ = Some ?d |- _ =>
        lazymatch goal with
        | _ : consistent e d |- _ => fail
        | _ =>
            let Hid := fresh "Hid" in
            let Hold := fresh "Hold" in
            destruct (Hst _ _ H) as [Hid Hold]; cbn [_id] in Hid; subst
        end
    end;
  repeat
    first
      [ assumption
      | apply sound_delete
      | apply sound_insert; [| reflexivity | consistency] ].

(** Every route keeps the store sound, whatever the environment answers. *)
Lemma handle_sound (env : Environment) (route : Route) (req : Request) (w : World) :
  sound env (store w) -> sound env (store (snd (handle env route req w))).
Proof.
  intros Hsound. destruct w as [st tr t0]. cbn [store] in Hsound.
  start (handle env route req {| store := st; trace := tr; now := t0 |}).
  destruct route.
  all: explore; finish; soundness.
Qed.

(** So does each function of the worker, run on a persisted record. *)
Lemma build_sound (env : Environment) (u : User) (d : Deployment) (w : World) :
  sound env (store w) ->
  store w !! _id d = Some d ->
  sound env (store (snd (snd (buildAndStartContainer env u (d, w))))).
Proof.
  intros Hsound Hd. destruct w as [st tr t0]. cbn [store] in *.
  open_doc d. cbn [_id] in Hd.
  match goal with
  | |- context [buildAndStartContainer env u ?s] =>
      start (buildAndStartContainer env u s)
  end.
  explore; finish; soundness.
Qed.

Lemma restart_sound (env : Environment) (d : Deployment) (w : World) :
  sound env (store w) ->
  store w !! _id d = Some d ->
  sound env (store (snd (snd (restartContainer env (d, w))))).
Proof.
  intros Hsound Hd. destruct w as [st tr t0]. cbn [store] in *.
  open_doc d. cbn [_id] in Hd.
  match goal with
  | |- context [restartContainer env ?s] => start (restartContainer env s)
  end.
  explore; finish; soundness.
Qed.

Lemma stop_sound (env : Environment) (d : Deployment) (w : World) :
  sound env (store w) ->
  sound env (store (snd (snd (stopContainer env (d, w))))).
Proof.
  intros Hsound. destruct w as [st tr t0]. cbn [store] in *.
  open_doc d.
  match goal with
  | |- context [stopContainer env ?s] => start (stopContainer env s)
  end.
  explore; finish; soundness.
Qed.

Lemma reachable_sound (env : Environment) (w : World) :
  reachable env w -> sound env (store w).
Proof.
  induction 1 as [|w route req _ IH|w u d _ IH Hd|w d _ IH Hd|w d _ IH Hd].
  - apply sound_empty.
  - by apply handle_sound.
  - by apply build_sound.
  - by apply restart_sound.
  - by apply stop_sound.
Qed.

(** The world in which the application of [server.js] has received a
    creation request and the worker has then run on the record created,
    nothing failing. *)
Lemma started_reachable :
  let env := Scenario.happy in
  let w := snd (handle env PostDeployments Scenario.create_request initial_world) in
  store w !! "64b7f0c2a1" = Some Scenario.new_deployment /\
  reachable env
    (snd (snd (buildAndStartContainer env Scenario.alice
                 (Scenario.new_deployment, w)))).
Proof.
  cbv zeta. split; [vm_compute; reflexivity|].
  apply reachable_build.
  - apply reachable_step, reachable_init.
  - vm_compute. reflexivity.
Qed.

(** C6, as stated, fails. The application of [server.js] creates the
    record and the worker then runs on it, nothing failing: the deployment
    runs and has a container reference, but its url is not the
    12-character prefix and the domain alone: it starts with the scheme
    [http://]. *)
Lemma running_url_has_a_scheme :
  let env := Scenario.happy in
  let w := snd (handle env PostDeployments Scenario.create_request initial_world) in
  let w' := snd (snd (buildAndStartContainer env Scenario.alice
                        (Scenario.new_deployment, w))) in
  reachable env w' /\
  store w' !! "64b7f0c2a1" = Some Scenario.running_deployment /\
  url Scenario.running_deployment = Some "http://0123456789ab.deploybot.app" /\
  spec_url env "0123456789abcdef0123" = "0123456789ab.deploybot.app" /\
  ~ running_has_spec_url env w'.
Proof.
  cbv zeta. split; [exact (proj2 started_reachable)|].
  split; [vm_compute; reflexivity|].
  split; [reflexivity|]. split; [vm_compute; reflexivity|].
  intros H.
  destruct (H "64b7f0c2a1" Scenario.running_deployment) as (c & Hc & Hu).
  - vm_compute. reflexivity.
  - reflexivity.
  - injection Hc as <-. vm_compute in Hu. discriminate Hu.
Qed.

(** C6, amended. In every world that the routes and the worker reach, a
    persisted deployment whose status is running has a container
    reference and a url, and the url is [http://], the first 12
    characters of the container reference, a dot, and the configured
    domain ([deploybot.app] when none is configured). *)
Theorem running_has_container_and_url
    (env : Environment) (w : World) (id : string) (d : Deployment) :
  reachable env w ->
  store w !! id = Some d ->
  status d = running ->
  exists c,
    containerId d = Some c /\
    url d = Some ("http://" +:+ Js.slice0 12 c +:+ "." +:+
                  Js.or_default (DEPLOYMENT_DOMAIN env) "deploybot.app").
Proof.
  intros Hreach Hd Hrun.
  destruct (reachable_sound env w Hreach id d Hd) as (_ & Hc & Hu).
  destruct (Hc Hrun) as [c Hcid].
  exists c. split; [exact Hcid|]. exact (Hu c Hcid).
Qed.

Lemma running_has_container_and_url_witness :
  exists c,
    containerId Scenario.running_deployment = Some c /\
    url Scenario.running_deployment =
      Some ("http://" +:+ Js.slice0 12 c +:+ "." +:+
            Js.or_default (DEPLOYMENT_DOMAIN Scenario.happy) "deploybot.app").
Proof.
  apply (running_has_container_and_url Scenario.happy
           (snd (snd (buildAndStartContainer Scenario.happy Scenario.alice
                        (Scenario.new_deployment,
                         snd (handle Scenario.happy PostDeployments
                                Scenario.create_request initial_world)))))
           "64b7f0c2a1" Scenario.running_deployment).
  - exact (proj2 started_reachable).
  - vm_compute. reflexivity.
  - reflexivity.
Defined.

(** ** The server around the routes *)

(** Unfolds an endpoint under the error-handling middleware down to the
    next question asked to the environment. *)
Ltac run_server :=
  cbv beta iota zeta delta
    [serve endpoint error_middleware get_deployment]; run.

Ltac explore_server := run_server; repeat (answer; run_server).

Ltac evaluate_server :=
  cbn [flat_map app stage_failure after_stage_failure after_rejection head
       persisted_status persisted emitted status_set rejection stage_call
       runtime_call existence_check file_written dir_removed image_named
       body_sent removal_asked logs
       is_stage is_runtime call outcome status Image In last length].

Ltac observe_server :=
  unfold sent_status, bodies, removals_asked, saved_statuses, published,
    responses, rejections, stage_calls, runtime_calls, existence_checks,
    files_written, dirs_removed, image_tags;
  evaluate_server;
  repeat
    (first
       [ unobserved
       | rewrite flat_map_app
       | rewrite stage_failure_app
       | rewrite after_stage_failure_app ];
     evaluate_server).
(** X1. A request on [/:id] whose id names no deployment of the requester
    (none at all, or one of another user) is refused the same way by the
    four routes, when the store answers the lookup: status 404 is set and
    [Deployment not found] is thrown; the store is as it was and nothing
    else is called, on the runtime or on the socket server. *)
Theorem unowned_deployment_is_not_found
    (env : Environment) (e : Endpoint) (req : Request) (w : World) :
  e <> Through PostDeployments ->
  fails env (trace w)
    (DeploymentFindOne (req_params_id req) (user_id (req_user req))) = None ->
  (forall d, store w !! req_params_id req = Some d ->
             user d <> user_id (req_user req)) ->
  endpoint env e req w =
    (Throw (Error "Deployment not found"),
     record (ResStatus 404) (Returned VUnit)
       (record (DeploymentFindOne (req_params_id req) (user_id (req_user req)))
          (Returned (VDoc None)) w)).
Proof.
  intros He Hfind Hown.
  assert (Hlookup :
    find_deployment env req w =
      (Throw (Error "Deployment not found"),
       record (ResStatus 404) (Returned VUnit)
         (record (DeploymentFindOne (req_params_id req) (user_id (req_user req)))
            (Returned (VDoc None)) w))).
  { unfold find_deployment, bind, Deployment_findOne. rewrite Hfind.
    destruct (store w !! req_params_id req) as [d|]; [|reflexivity].
    specialize (Hown d eq_refl). apply String.eqb_neq in Hown.
    rewrite Hown. reflexivity. }
  destruct e as [|[]]; try (by destruct He); cbn [endpoint handle].
  - unfold get_deployment, bind. by rewrite Hlookup.
  - unfold put_deployment, bind. by rewrite Hlookup.
  - unfold post_restart, bind. by rewrite Hlookup.
  - unfold delete_deployment, bind. by rewrite Hlookup.
Qed.

(** Another user asks to delete a running deployment. *)
Lemma unowned_deployment_is_not_found_witness :
  let req := {| req_app := server_app; req_user := {| user_id := "u2" |};
                req_params_id := "64b7f0c2a1";
                req_body := Scenario.body |} in
  let w := Scenario.world_with Scenario.running_deployment in
  fst (endpoint Scenario.happy (Through DeleteDeployment) req w) =
    Throw (Error "Deployment not found") /\
  store (snd (endpoint Scenario.happy (Through DeleteDeployment) req w)) = store w.
Proof.
  cbv zeta.
  rewrite (unowned_deployment_is_not_found Scenario.happy
             (Through DeleteDeployment)
             {| req_app := server_app; req_user := {| user_id := "u2" |};
                req_params_id := "64b7f0c2a1";
                req_body := Scenario.body |}
             (Scenario.world_with Scenario.running_deployment)).
  - split; reflexivity.
  - discriminate.
  - reflexivity.
  - intros d Hd. vm_compute in Hd. injection Hd as <-. discriminate.
Defined.


(** Learns, for each record found in a sound store, that it is stored under
    its own id. *)
Ltac keyed_records :=
  repeat
    match goal with
    | Hs : sound ?e ?m, H : ?m !! _ = Some ?d |- _ =>
        lazymatch goal with
        | _ : consistent e d |- _ => fail
        | _ =>
            let Hid := fresh "Hid" in
            let Hold := fresh "Hold" in
            destruct (Hs _ _ H) as [Hid Hold]; cbn [_id] in Hid; subst
        end
    end.

(** What every run of an endpoint under the middleware shows, by cases on
    the answers of the environment. *)
Lemma serve_facts
    (env : Environment) (stack : exn -> string) (e : Endpoint)
    (req : Request) (w : World) :
  let out := serve env stack e req w in
  let new := since w (snd out) in
  length (bodies new) = 1 /\
  (sent_status new = Some 200 \/ sent_status new = Some 201 \/
   sent_status new = Some 500) /\
  (In 400 (responses new) \/ In 404 (responses new) ->
   sent_status new = Some 500 /\ bodies new = [Failure "Server error"]) /\
  (e <> Through DeleteDeployment -> removals_asked new = []) /\
  Forall (fun '(room, _, _) => room = user_id (req_user req)) (published new) /\
  (unwired req -> e <> GetDeployment ->
   sent_status new = Some 500 /\ bodies new = [Failure "Server error"] /\
   published new = [] /\
   (e <> Through DeleteDeployment -> runtime_calls new = [])) /\
  (sound env (store w) ->
   (forall k, k <> addressed env e req w ->
              store (snd out) !! k = store w !! k) /\
   (forall d, In (Success (Some d)) (bodies new) ->
              store (snd out) !! _id d = Some d) /\
   Forall (fun '(_, _, p) => deploymentId p = addressed env e req w)
     (published new)).
Proof.
  destruct w as [st tr t0]. cbv zeta. cbn [store].
  start (serve env stack e req {| store := st; trace := tr; now := t0 |}).
  destruct e as [|[]].
  all: explore_server; finish; observe_server; cbn [addressed trace].
  all: split; [reflexivity|].
  all: split; [tauto|].
  all: split; [intros [H|H]; cbn [In] in H; intuition (try discriminate)|].
  all: split; [intros He; first [reflexivity | done]|].
  all: split; [repeat constructor|].
  all: split;
    [ unfold unwired, app_get; intros Hio He;
      first
        [ congruence
        | split; [reflexivity|]; split; [reflexivity|]; split; [reflexivity|];
          intros Hd; first [reflexivity | congruence] ] |].
  all: intros Hsound; keyed_records.
  all: split; [intros k Hk; by rewrite ?lookup_insert_ne, ?lookup_delete_ne|].
  all: split; [|repeat constructor].
  all: intros d Hin; cbn [In] in Hin; intuition (try discriminate).
  all: match goal with
       | H : Success _ = Success _ |- _ => injection H; clear H; intros; subst
       end.
  all: cbn [_id]; first [apply lookup_insert_eq | assumption].
Qed.

(** X2. Behind the error-handling middleware every request is answered
    exactly once: whatever the environment answers, and whether the
    handler returns or throws, [res.json] is called once. *)
Theorem every_request_is_answered_once
    (env : Environment) (stack : exn -> string) (e : Endpoint)
    (req : Request) (w : World) :
  length (bodies (since w (snd (serve env stack e req w)))) = 1.
Proof. exact (proj1 (serve_facts env stack e req w)). Qed.

(** X3. The status a response goes out with is 200, 201 or 500, never the
    400 or 404 that a handler sets before it throws: the error-handling
    middleware then sets 500 and answers [Server error]. *)
Theorem refusals_go_out_as_server_errors
    (env : Environment) (stack : exn -> string) (e : Endpoint)
    (req : Request) (w : World) :
  let new := since w (snd (serve env stack e req w)) in
  (sent_status new = Some 200 \/ sent_status new = Some 201 \/
   sent_status new = Some 500) /\
  (In 400 (responses new) \/ In 404 (responses new) ->
   sent_status new = Some 500 /\ bodies new = [Failure "Server error"]).
Proof.
  destruct (serve_facts env stack e req w) as (_ & H1 & H2 & _).
  split; [exact H1 | exact H2].
Qed.

Lemma refusals_go_out_as_server_errors_witness :
  let req := {| req_app := server_app; req_user := Scenario.alice;
                req_params_id := EmptyString;
                req_body := {| body_repoUrl := Some "not-a-url";
                               body_branch := None; body_envVars := None;
                               body_buildCommand := None;
                               body_startCommand := None;
                               body_name := None |} |} in
  let new := since initial_world
               (snd (serve Scenario.happy message (Through PostDeployments) req
                       initial_world)) in
  responses new = [400; 500] /\
  sent_status new = Some 500 /\ bodies new = [Failure "Server error"].
Proof.
  cbv zeta. split; [vm_compute; reflexivity|].
  apply (proj2 (refusals_go_out_as_server_errors Scenario.happy message
                  (Through PostDeployments) _ initial_world)).
  left. vm_compute. left. reflexivity.
Defined.

(** ** What the routes leave alone *)

(** X9. Only DELETE asks the file system to remove a directory: a Start
    that fails, a Restart, an Update and a read leave every workspace in
    place. *)
Theorem only_delete_removes_a_workspace
    (env : Environment) (stack : exn -> string) (e : Endpoint)
    (req : Request) (w : World) :
  e <> Through DeleteDeployment ->
  removals_asked (since w (snd (serve env stack e req w))) = [].
Proof.
  destruct (serve_facts env stack e req w) as (_ & _ & _ & H & _). exact H.
Qed.

Lemma only_delete_removes_a_workspace_witness :
  removals_asked
    (since initial_world
       (snd (serve Scenario.unreachable_repo message (Through PostDeployments)
               Scenario.create_request initial_world))) = [].
Proof.
  apply only_delete_removes_a_workspace. discriminate.
Defined.

(** X11. A request changes no record but the one it addresses: the one it
    creates, or the one its [:id] names. *)
Theorem other_records_are_untouched
    (env : Environment) (stack : exn -> string) (e : Endpoint)
    (req : Request) (w : World) (k : string) :
  sound env (store w) ->
  k <> addressed env e req w ->
  store (snd (serve env stack e req w)) !! k = store w !! k.
Proof.
  intros Hsound.
  destruct (serve_facts env stack e req w) as (_ & _ & _ & _ & _ & _ & H).
  exact (proj1 (H Hsound) k).
Qed.

Lemma other_records_are_untouched_witness :
  let w := Scenario.world_with Scenario.running_deployment in
  store (snd (serve Scenario.happy message (Through PostDeployments)
                {| req_app := server_app; req_user := Scenario.alice;
                   req_params_id := EmptyString; req_body := Scenario.body |}
                w)) !! "0000000000" = None.
Proof.
  cbv zeta.
  rewrite (other_records_are_untouched Scenario.happy message
             (Through PostDeployments) _
             (Scenario.world_with Scenario.running_deployment) "0000000000").
  - reflexivity.
  - intros id d Hd. cbn [Scenario.world_with store] in Hd.
    apply lookup_singleton_Some in Hd as [<- <-].
    split; [reflexivity|]. split; [by eauto|].
    intros c [= <-]. reflexivity.
  - cbn. discriminate.
Defined.

(** X12. Reading a deployment changes nothing: whatever the environment
    answers, GET on [/:id] leaves the store as it was, publishes nothing
    and calls nothing on the runtime; when the requester owns the record
    and the store answers, the response is 200 with the record. *)
Theorem reading_changes_nothing
    (env : Environment) (stack : exn -> string) (req : Request) (w : World) :
  let out := serve env stack GetDeployment req w in
  let new := since w (snd out) in
  (store (snd out) = store w /\ published new = [] /\ runtime_calls new = []) /\
  (forall d,
     store w !! req_params_id req = Some d ->
     user d = user_id (req_user req) ->
     fails env (trace w)
       (DeploymentFindOne (req_params_id req) (user_id (req_user req))) = None ->
     sent_status new = Some 200 /\ bodies new = [Success (Some d)]).
Proof.
  destruct w as [st tr t0]. cbv zeta. cbn [store trace].
  start (serve env stack GetDeployment req {| store := st; trace := tr; now := t0 |}).
  explore_server; finish; observe_server.
  all: split; [repeat split; reflexivity|].
  all: intros d Hd Hu Hf; try congruence.
  all: try (injection Hd as <-; cbn [user] in Hu;
            match goal with H : String.eqb _ _ = false |- _ =>
              apply String.eqb_neq in H; contradiction
            end).
  all: injection Hd as <-; split; reflexivity.
Qed.

Lemma reading_changes_nothing_witness :
  let w := Scenario.world_with Scenario.running_deployment in
  let new := since w (snd (serve Scenario.happy message GetDeployment
                             Scenario.id_request w)) in
  sent_status new = Some 200 /\
  bodies new = [Success (Some Scenario.running_deployment)].
Proof.
  cbv zeta.
  apply (proj2 (reading_changes_nothing Scenario.happy message
                  Scenario.id_request
                  (Scenario.world_with Scenario.running_deployment))
           Scenario.running_deployment); reflexivity.
Defined.

(** X13. A successful response carries the record as persisted: whenever
    a route answers with a deployment, that deployment is what the store
    then holds under its id. In the application of [server.js], which has
    no socket server registered, the only route that answers so is the
    read. *)
Theorem answered_record_is_persisted
    (env : Environment) (stack : exn -> string) (e : Endpoint)
    (req : Request) (w : World) (d : Deployment) :
  sound env (store w) ->
  let out := serve env stack e req w in
  In (Success (Some d)) (bodies (since w (snd out))) ->
  store (snd out) !! _id d = Some d /\
  (unwired req -> e = GetDeployment).
Proof.
  intros Hsound. cbv zeta. intros Hin.
  destruct (serve_facts env stack e req w) as (_ & _ & _ & _ & _ & Hship & H).
  split; [exact (proj1 (proj2 (H Hsound)) d Hin)|].
  intros Hio. destruct e as [|route]; [reflexivity|].
  destruct (Hship Hio ltac:(discriminate)) as (_ & Hb & _).
  rewrite Hb in Hin. cbn [In] in Hin. intuition discriminate.
Qed.

(** The owner reads a running deployment through the application of
    [server.js]. *)
Lemma answered_record_is_persisted_witness :
  let w := Scenario.world_with Scenario.running_deployment in
  store (snd (serve Scenario.happy message GetDeployment Scenario.id_request w))
    !! _id Scenario.running_deployment = Some Scenario.running_deployment.
Proof.
  cbv zeta.
  refine (proj1 (answered_record_is_persisted Scenario.happy message
                   GetDeployment Scenario.id_request
                   (Scenario.world_with Scenario.running_deployment)
                   Scenario.running_deployment _ _)).
  - intros id d Hd. cbn [Scenario.world_with store] in Hd.
    apply lookup_singleton_Some in Hd as [<- <-].
    split; [reflexivity|]. split; [by eauto|].
    intros c [= <-]. reflexivity.
  - vm_compute. left. reflexivity.
Defined.

(** X14. Events go to the requester's room and to no other: every event
    that a request publishes is sent to the room named by the id of the
    user who made it; in a sound store it is about the deployment that the
    request addresses. *)
Theorem events_go_to_the_requester
    (env : Environment) (stack : exn -> string) (e : Endpoint)
    (req : Request) (w : World) :
  let new := since w (snd (serve env stack e req w)) in
  Forall (fun '(room, _, _) => room = user_id (req_user req)) (published new) /\
  (sound env (store w) ->
   Forall (fun '(_, _, p) => deploymentId p = addressed env e req w)
     (published new)).
Proof.
  destruct (serve_facts env stack e req w) as (_ & _ & _ & _ & H1 & _ & H2).
  split; [exact H1|]. intros Hsound. exact (proj2 (proj2 (H2 Hsound))).
Qed.

(** ** The application of server.js *)

(** X20. In the application of [server.js], which registers no socket
    server, every request that creates, updates, restarts or deletes a
    deployment is answered 500 with [Server error], whatever the
    environment answers and whatever the handler did before: nothing is
    published, and outside DELETE nothing is called on the runtime, so
    that no deployment is ever cloned, built, started or restarted. *)
Theorem mutations_end_in_server_error
    (env : Environment) (stack : exn -> string) (e : Endpoint)
    (req : Request) (w : World) :
  unwired req ->
  e <> GetDeployment ->
  let new := since w (snd (serve env stack e req w)) in
  sent_status new = Some 500 /\ bodies new = [Failure "Server error"] /\
  published new = [] /\
  (e <> Through DeleteDeployment -> runtime_calls new = []).
Proof.
  intros Hio He.
  destruct (serve_facts env stack e req w) as (_ & _ & _ & _ & _ & H & _).
  exact (H Hio He).
Qed.

(** A valid creation request, on which nothing fails. *)
Lemma mutations_end_in_server_error_witness :
  let new := since initial_world
               (snd (serve Scenario.happy message (Through PostDeployments)
                       Scenario.create_request initial_world)) in
  sent_status new = Some 500 /\ bodies new = [Failure "Server error"] /\
  runtime_calls new = [].
Proof.
  cbv zeta.
  destruct (mutations_end_in_server_error Scenario.happy message
              (Through PostDeployments) Scenario.create_request initial_world
              eq_refl ltac:(discriminate)) as (H1 & H2 & _ & H4).
  split; [exact H1|]. split; [exact H2|]. apply H4. discriminate.
Defined.

(** ** The guard, again *)

(** X4. The guard of the creation route looks for its pattern anywhere in
    the string: whatever is put before or after an accepted string, the
    result is accepted. It constrains neither the scheme nor the host. *)
Theorem guard_ignores_what_surrounds (before s rest : string) :
  Regex.search github_pattern s = true ->
  Regex.search github_pattern (before +:+ s +:+ rest) = true.
Proof.
  rewrite !guard_accepts.
  intros (b & x & y & r & -> & Hshape).
  exists (before +:+ b), x, y, (r +:+ rest). split; [|exact Hshape].
  by rewrite !append_assoc.
Qed.

Lemma guard_ignores_what_surrounds_witness :
  Regex.search github_pattern
    ("ftp://elsewhere.example/?" +:+ "github.com/a/b" +:+ "#x") = true.
Proof.
  apply guard_ignores_what_surrounds. vm_compute. reflexivity.
Defined.

(** ** The worker: what it leaves alone *)

(** X5. Stop changes neither the document nor the store, whether it
    succeeds or fails: a stopped deployment keeps its status, its
    container reference and its url. *)
Theorem stop_changes_no_record (env : Environment) (d : Deployment) (w : World) :
  let out := stopContainer env (d, w) in
  fst (snd out) = d /\ store (snd (snd out)) = store w.
Proof.
  destruct w as [st tr t0]. cbv zeta. open_doc d.
  match goal with
  | |- context [stopContainer env ?s] => start (stopContainer env s)
  end.
  explore; finish; split; reflexivity.
Qed.

(** X6. Build-and-start writes the status, the logs, the container
    reference and the url of its document and nothing else: id, owner,
    name, repository, branch, environment and commands are as they were.
    In the store it writes the record of that document only. *)
Theorem worker_keeps_the_settings
    (env : Environment) (u : User) (d : Deployment) (w : World) :
  let out := buildAndStartContainer env u (d, w) in
  settings (fst (snd out)) = settings d /\
  forall k, k <> _id d -> store (snd (snd out)) !! k = store w !! k.
Proof.
  destruct w as [st tr t0]. cbv zeta. open_doc d. cbn [_id].
  match goal with
  | |- context [buildAndStartContainer env u ?s] =>
      start (buildAndStartContainer env u s)
  end.
  explore; finish.
  all: split; [reflexivity|].
  all: intros k Hk; by rewrite ?lookup_insert_ne.
Qed.

(** X10. The cleanup stops at the first call that fails: at most one call
    fails in a cleanup, and nothing follows it but the log of the failure.
    When the container cannot be stopped, neither its removal nor the
    removal of the image is tried. *)
Theorem cleanup_stops_at_the_first_failure
    (env : Environment) (u : User) (d : Deployment) (w : World) :
  let new := since w (snd (snd (guarded_cleanup env u (d, w)))) in
  match rejections new with
  | [] => after_rejection new = []
  | [(_, e)] =>
      calls (after_rejection new) =
        [LoggerError ("Cleanup failed: " +:+ message e)]
  | _ => False
  end.
Proof.
  destruct w as [st tr t0]. cbv zeta. open_doc d.
  match goal with
  | |- context [guarded_cleanup env u ?s] => start (guarded_cleanup env u s)
  end.
  unfold guarded_cleanup.
  run; repeat (answer_basic; run).
  all: finish; observe_server; reflexivity.
Qed.

(** ** Restart, when the deployment has a container *)

(** X7. The restart worker touches nothing but the status and the logs of
    its document and the record of that document: settings, container
    reference and url are as they were, whatever happens. The only call it
    ever makes on the runtime is the restart of the recorded container.
    When it returns, no call has failed and the record is persisted as
    running, with the logs of the success; and it does return the recorded
    container when no call fails. *)
Theorem restart_touches_status_and_logs
    (env : Environment) (d : Deployment) (w : World) :
  let out := restartContainer env (d, w) in
  let new := since w (snd (snd out)) in
  let d' := fst (snd out) in
  (settings d' = settings d /\ containerId d' = containerId d /\ url d' = url d) /\
  (forall k, k <> _id d -> store (snd (snd out)) !! k = store w !! k) /\
  (runtime_calls new = [] \/
   exists c, containerId d = Some c /\ runtime_calls new = [ContainerRestart c]) /\
  (forall c,
     fst out = Ok c ->
     containerId d = Some (container_id c) /\
     rejections new = [] /\
     saved_statuses new = [running] /\
     status d' = running /\
     logs d' = Some "Container restarted successfully" /\
     store (snd (snd out)) !! _id d = Some d') /\
  (forall c,
     containerId d = Some c -> Js.truthy (Some c) = true -> reliable env ->
     fst out = Ok {| container_id := c |}).
Proof.
  destruct w as [st tr t0]. cbv zeta. open_doc d.
  cbn [_id containerId url settings name repoUrl branch envVars buildCommand
       startCommand user store].
  match goal with
  | |- context [restartContainer env ?s] => start (restartContainer env s)
  end.
  explore; finish; observe_server.
  all: split; [repeat split; reflexivity|].
  all: split; [intros k Hk; by rewrite ?lookup_insert_ne|].
  all: split;
    [ first
        [ left; reflexivity
        | right;
          lazymatch goal with
          | H : Js.truthy ?x = true |- exists c, ?x = Some c /\ _ =>
              destruct x as [c0|]; [|discriminate H];
              exists c0; split; reflexivity
          end ] |].
  all: split;
    [ intros c Hc; try discriminate Hc;
      injection Hc as <-; cbn [container_id];
      lazymatch goal with
      | H : Js.truthy ?x = true |- _ =>
          destruct x as [c0|]; [|discriminate H]
      end;
      repeat split; try reflexivity; apply lookup_insert_eq |].
  all: intros c Hc Ht Hall; subst.
  all: first
         [ reflexivity
         | congruence
         | match goal with
           | H : fails _ _ _ = Some _ |- _ => rewrite Hall in H; discriminate H
           end ].
Qed.

Lemma restart_touches_status_and_logs_witness :
  fst (restartContainer Scenario.happy
         (Scenario.running_deployment,
          Scenario.world_with Scenario.running_deployment)) =
    Ok {| container_id := "0123456789abcdef0123" |}.
Proof.
  apply (proj2 (proj2 (proj2 (proj2
           (restart_touches_status_and_logs Scenario.happy
              Scenario.running_deployment
              (Scenario.world_with Scenario.running_deployment)))))
           "0123456789abcdef0123").
  - reflexivity.
  - reflexivity.
  - exact happy_reliable.
Defined.

(** X8. When the runtime refuses to restart the container, the restart
    worker marks the document as failed, with [Restart failed: ] and the
    message in its logs, and saves it: these are its only two calls. If
    the save goes through, the record stays so and the error of the
    runtime is thrown to the caller; if the save fails too, the store
    keeps what it had and it is the error of the save that is thrown: the
    error of the runtime is lost. *)
Theorem refused_restart_is_marked_failed
    (env : Environment) (d : Deployment) (w : World) (c : string) (e : exn) :
  containerId d = Some c ->
  Js.truthy (Some c) = true ->
  fails env (trace w) (ContainerRestart c) = Some e ->
  let out := restartContainer env (d, w) in
  let new := since w (snd (snd out)) in
  let refused := {| call := ContainerRestart c; outcome := Rejected e |} in
  let marked := set_logs ("Restart failed: " +:+ message e) (set_status failed d) in
  calls new = [ContainerRestart c; DeploymentSave marked] /\
  match fails env (trace w ++ [refused]) (DeploymentSave marked) with
  | None =>
      fst out = Throw e /\
      store (snd (snd out)) !! _id d =
        Some (set_updatedAt (clock env (S (now w))) marked)
  | Some e' =>
      fst out = Throw e' /\ store (snd (snd out)) = store w
  end.
Proof.
  intros Hc Ht Hr. destruct w as [st tr t0]. cbv zeta. open_doc d.
  cbn [containerId trace] in *. subst.
  cbv beta iota delta
    [set_logs set_status set_updatedAt _id user name repoUrl branch envVars
     buildCommand startCommand status logs containerId url updatedAt now store].
  match goal with
  | |- context [restartContainer env ?s] => start (restartContainer env s)
  end.
  explore; finish; observe_server.
  all: cbn [calls map call]; split; [reflexivity|].
  all: try match goal with
           | H : fails _ _ (DeploymentSave _) = _ |- _ => rewrite H
           end.
  all: split; first [reflexivity | apply lookup_insert_eq].
Qed.

Lemma container_gone_restart_fails :
  fails Scenario.container_gone [] (ContainerRestart "0123456789abcdef0123") =
    Some (Error "(HTTP code 404) no such container").
Proof. reflexivity. Qed.

(** The container of a running deployment is gone. *)
Lemma refused_restart_is_marked_failed_witness :
  let w := Scenario.world_with Scenario.running_deployment in
  let out := restartContainer Scenario.container_gone
               (Scenario.running_deployment, w) in
  calls (since w (snd (snd out))) =
    [ContainerRestart "0123456789abcdef0123";
     DeploymentSave
       (set_logs "Restart failed: (HTTP code 404) no such container"
          (set_status failed Scenario.running_deployment))].
Proof.
  cbv zeta.
  exact (proj1 (refused_restart_is_marked_failed Scenario.container_gone
                  Scenario.running_deployment
                  (Scenario.world_with Scenario.running_deployment)
                  "0123456789abcdef0123"
                  (Error "(HTTP code 404) no such container")
                  eq_refl eq_refl container_gone_restart_fails)).
Defined.

(** ** The theme provider *)

(** X15. What the toggle saves is read back at the next mount: after a
    toggle, mounting the provider again in the same browser sets
    [darkMode] to the toggled value, the negation of what it was, whatever
    the system prefers. *)
Theorem toggled_theme_survives_a_reload
    (parse_other : string -> option Theme.value) (v : Theme.value)
    (b : Theme.Browser) :
  let '(newMode, b') := Theme.toggleDarkMode v b in
  Theme.mount parse_other b' = Some newMode /\
  Theme.truthy newMode = negb (Theme.truthy v) /\
  Theme.matchMedia b' = Theme.matchMedia b.
Proof.
  unfold Theme.toggleDarkMode, Theme.mount. cbn.
  by destruct (Theme.truthy v).
Qed.

(** X16. Two toggles in a row give back the theme shown before them, and
    leave its boolean saved. *)
Theorem toggling_twice_restores_the_theme (v : Theme.value) (b : Theme.Browser) :
  let '(v1, b1) := Theme.toggleDarkMode v b in
  let '(v2, b2) := Theme.toggleDarkMode v1 b1 in
  Theme.className v2 = Theme.className v /\
  Theme.darkMode_item b2 = Some (Theme.JSON_stringify (Theme.truthy v)).
Proof.
  unfold Theme.toggleDarkMode, Theme.className. cbn.
  by destruct (Theme.truthy v).
Qed.

(** ** The socket server *)

Lemma hub_run_snoc (events : list Hub.Event) (ev : Hub.Event) :
  Hub.run (events ++ [ev]) = Hub.step (Hub.run events) ev.
Proof. unfold Hub.run. by rewrite fold_left_app. Qed.

(** X17. A socket is in no room but the one named by its own id and those
    it asked for by [subscribe]: an event emitted to a room reaches a
    socket only if the room is the socket's id or the socket has sent
    [subscribe] with the name of the room. An event under another name,
    such as [authenticate], brings a socket into no room. *)
Theorem rooms_come_from_subscribe (events : list Hub.Event) (room socket : string) :
  Hub.reaches (Hub.run events) room socket ->
  room = socket \/ In (Hub.From socket (Hub.Subscribe room)) events.
Proof.
  induction events as [|ev events IH] using rev_ind.
  - intros (joined & H & _). cbn in H. by rewrite lookup_empty in H.
  - rewrite hub_run_snoc. intros (joined & Hj & Hin).
    assert (Hold : Hub.reaches (Hub.run events) room socket ->
                   room = socket \/
                   In (Hub.From socket (Hub.Subscribe room)) (events ++ [ev])).
    { intros H. destruct (IH H) as [?|?]; [by left|].
      right. apply in_or_app. by left. }
    destruct ev as [sk|sk m]; cbn [Hub.step] in Hj.
    + cbn [Hub.rooms] in Hj. rewrite lookup_insert in Hj.
      case_decide as Hk.
      * injection Hj as <-. apply elem_of_singleton in Hin. subst. by left.
      * apply Hold. by exists joined.
    + destruct (Hub.rooms (Hub.run events) !! sk) as [js|] eqn:Hsk;
        [|apply Hold; by exists joined].
      destruct m as [r| |name]; cbn [Hub.rooms] in Hj.
      * rewrite lookup_insert in Hj. case_decide as Hk.
        -- injection Hj as <-. subst sk.
           apply elem_of_union in Hin as [Hin|Hin].
           ++ apply Hold. by exists js.
           ++ apply elem_of_singleton in Hin. subst.
              right. apply in_or_app. right. by left.
        -- apply Hold. by exists joined.
      * rewrite lookup_delete in Hj. case_decide; [discriminate|].
        apply Hold. by exists joined.
      * apply Hold. by exists joined.
Qed.

(** A client connects and authenticates, as the application does: an
    event emitted to the room of its user reaches it only if the user's
    id is the socket's. *)
Lemma rooms_come_from_subscribe_witness :
  Hub.reaches
    (Hub.run [Hub.Connection "s1"; Hub.From "s1" (Hub.Named "authenticate")])
    "s1" "s1" /\
  ("s1" = "s1" \/
   In (Hub.From "s1" (Hub.Subscribe "s1"))
     [Hub.Connection "s1"; Hub.From "s1" (Hub.Named "authenticate")]).
Proof.
  assert (H : Hub.reaches
                (Hub.run [Hub.Connection "s1";
                          Hub.From "s1" (Hub.Named "authenticate")])
                "s1" "s1").
  { exists {[ "s1" ]}. split; [reflexivity | by apply elem_of_singleton]. }
  split; [exact H|].
  exact (rooms_come_from_subscribe _ _ _ H).
Defined.
(** ** The calls of a successful build and of a clean Stop *)

Lemma place_In (n m : N) (kv kv' : string * string)
    (sorted : list (N * (string * string))) :
  In (m, kv') (Js.place n kv sorted) -> kv' = kv \/ In (m, kv') sorted.
Proof.
  induction sorted as [|[k x] sorted IH]; cbn [Js.place].
  - intros [[= _ <-]|[]]. by left.
  - destruct (n <? k)%N; cbn [In].
    + intros [[= _ <-]|H]; [by left | by right].
    + intros [H|H]; [right; by left|].
      destruct (IH H) as [?|?]; [by left | right; by right].
Qed.

(** [Object.entries] lists own properties only. *)
Lemma entries_In (o : list (string * string)) (kv : string * string) :
  In kv (Js.entries o) -> In kv o.
Proof.
  unfold Js.entries. intros H. apply in_app_or in H as [H|H].
  - apply in_map_iff in H as ([m kv'] & <- & H). cbn [snd].
    unfold Js.indexed in H.
    assert (Hgen : forall acc,
              In (m, kv')
                (fold_left
                   (fun acc kv =>
                      match Js.array_index (fst kv) with
                      | Some n => Js.place n kv acc
                      | None => acc
                      end) o acc) ->
              In kv' o \/ In (m, kv') acc).
    { clear H. induction o as [|x o IH]; intros acc H; [by right|].
      cbn [fold_left] in H. destruct (IH _ H) as [?|Hacc]; [left; by right|].
      destruct (Js.array_index (fst x)); [|by right].
      destruct (place_In _ _ _ _ _ Hacc) as [->|?]; [left; by left | by right]. }
    destruct (Hgen [] H) as [?|[]]. done.
  - unfold Js.named in H. by apply List.filter_In in H as [H _].
Qed.

Lemma set_property_In (key value : string) (acc : list (string * string))
    (kv : string * string) :
  In kv (set_property key value acc) -> kv = (key, value) \/ In kv acc.
Proof.
  induction acc as [|[k v] acc IH]; cbn [set_property].
  - intros [<-|[]]. by left.
  - destruct (String.eqb k key) eqn:Hk; cbn [In].
    + apply String.eqb_eq in Hk as ->.
      intros [<-|H]; [by left | right; by right].
    + intros [H|H]; [right; by left|].
      destruct (IH H) as [?|?]; [by left | right; by right].
Qed.

(** The build arguments are made of entries of [envVars], and none of
    them is named [__proto__]. *)
Lemma buildargs_In (kvs acc : list (string * string)) (k v : string) :
  In (k, v) (fold_left (fun acc '(key, value) => put_key key value acc) kvs acc) ->
  In (k, v) acc \/ (In (k, v) kvs /\ k <> "__proto__").
Proof.
  revert acc. induction kvs as [|[key value] kvs IH]; intros acc H.
  - by left.
  - cbn [fold_left] in H. destruct (IH _ H) as [Hacc|[Hin Hk]].
    + unfold put_key in Hacc.
      destruct (String.eqb key "__proto__") eqn:Hkey; [by left|].
      destruct (set_property_In _ _ _ _ Hacc) as [[= -> ->]|?]; [|by left].
      right. split; [by left|]. by apply String.eqb_neq.
    + right. split; [by right | done].
Qed.

(** X18. A run of the worker that returns has made these calls on git,
    the file system and the runtime, once each and in this order, none
    failing: the clone of the repository at depth 1 of the record's branch
    into the directory named by the id under the repositories root; the
    check for a Dockerfile there and, exactly when the answer was no, its
    synthesis; the build of the image, with the entries of [envVars] as
    build arguments, none named [__proto__]; the creation of a container
    named after the deployment and the user, with the entries of
    [envVars] as [key=value] strings and restart policy [always]; its
    start. The document then has the id of that container. *)
Theorem successful_build_calls
    (env : Environment) (u : User) (d : Deployment) (w : World) (c : Container) :
  let out := buildAndStartContainer env u (d, w) in
  let new := since w (snd (snd out)) in
  let repoDir := path_join (REPOS_DIR env) (_id d) in
  let dockerfile := path_join repoDir "Dockerfile" in
  fst out = Ok c ->
  exists kvs present buildargs,
    envVars d = Some kvs /\
    existence_checks new = [(dockerfile, present)] /\
    buildargs =
      fold_left (fun acc '(key, value) => put_key key value acc) (Js.entries kvs) [] /\
    (forall k v, In (k, v) buildargs -> In (k, v) kvs /\ k <> "__proto__") /\
    runtime_calls new =
      [GitClone (repoUrl d) repoDir ["--branch"; branch d; "--depth"; "1"];
       FsExistsSync dockerfile] ++
      (if (present : bool) then []
       else [FsWriteFileSync dockerfile
               (Js.trimEnd (descriptor (buildCommand d) (startCommand d)))]) ++
      [DockerBuildImage repoDir ("deploybot-" +:+ _id d) buildargs;
       FollowProgress;
       DockerCreateContainer
         {| Image := "deploybot-" +:+ _id d;
            container_name := "deploybot-" +:+ _id d +:+ "-" +:+ user_id u;
            Env := map (fun '(k, v) => k +:+ "=" +:+ v) (Js.entries kvs);
            RestartPolicy := "always" |};
       ContainerStart (container_id c)] /\
    rejections new = [] /\
    containerId (fst (snd out)) = Some (container_id c).
Proof.
  destruct w as [st tr t0]. cbv zeta. open_doc d.
  cbn [_id envVars repoUrl branch buildCommand startCommand].
  match goal with
  | |- context [buildAndStartContainer env u ?s] =>
      start (buildAndStartContainer env u s)
  end.
  explore; finish; observe_server.
  all: intros Hc; try discriminate Hc; injection Hc as <-.
  all: eexists _, _, _; split; [reflexivity|]; split; [reflexivity|].
  all: split; [reflexivity|].
  all: split;
    [ intros k v Hin; apply buildargs_In in Hin as [[]|[Hin Hk]];
      split; [by apply entries_In | exact Hk] |].
  all: cbn [app container_id]; rewrite ?trim_dockerfileContent;
    cbn [buildCommand startCommand].
  all: repeat split; reflexivity.
Qed.

Lemma successful_build_calls_witness :
  let w := Scenario.world_with Scenario.new_deployment in
  let out := buildAndStartContainer Scenario.happy Scenario.alice
               (Scenario.new_deployment, w) in
  exists present,
    existence_checks (since w (snd (snd out))) =
      [("/app/repos/64b7f0c2a1/Dockerfile", present)].
Proof.
  cbv zeta.
  destruct (successful_build_calls Scenario.happy Scenario.alice
              Scenario.new_deployment
              (Scenario.world_with Scenario.new_deployment)
              {| container_id := "0123456789abcdef0123" |})
    as (kvs & present & _ & _ & Hcheck & _).
  - vm_compute. reflexivity.
  - exists present. exact Hcheck.
Defined.

(** X19. A Stop in which no call fails, on a deployment that has a
    container, returns after these calls and no others, in this order:
    the container is stopped and then removed; the images are listed, and
    the first one of the list tagged [deploybot-<id>:latest], if there is
    one, is removed; the workspace is looked for and, exactly when it is
    there, removed. *)
Theorem clean_stop_calls
    (env : Environment) (d : Deployment) (w : World) (c : string) :
  containerId d = Some c ->
  Js.truthy (Some c) = true ->
  let out := stopContainer env (d, w) in
  let new := since w (snd (snd out)) in
  let repoDir := path_join (REPOS_DIR env) (_id d) in
  let tagged := fun img =>
    match RepoTags img with
    | Some tags => Js.includes tags (image_tag d +:+ ":latest")
    | None => false
    end in
  rejections new = [] ->
  fst out = Ok tt /\
  exists imgs present,
    new =
      [{| call := ContainerStop c; outcome := Returned VUnit |};
       {| call := ContainerRemove c; outcome := Returned VUnit |};
       {| call := DockerListImages; outcome := Returned (VImages imgs) |}] ++
      match Js.find tagged imgs with
      | Some info =>
          [{| call := ImageRemove (ImageId info); outcome := Returned VUnit |}]
      | None => []
      end ++
      [{| call := FsExistsSync repoDir; outcome := Returned (VBool present) |}] ++
      (if (present : bool)
       then [{| call := FsRmSync repoDir; outcome := Returned VUnit |}]
       else []).
Proof.
  intros Hc Ht. destruct w as [st tr t0]. cbv zeta. open_doc d.
  cbn [_id containerId] in *. subst.
  match goal with
  | |- context [stopContainer env ?s] => start (stopContainer env s)
  end.
  explore; finish; observe_server.
  all: intros Hrej; try discriminate Hrej.
  all: split; [reflexivity|].
  all: lazymatch goal with
       | |- context [VImages ?listed] => exists listed
       end.
  all: match goal with
       | H : Js.find ?f ?l = _ |- context [Js.find ?f' ?l'] =>
           change (Js.find f' l') with (Js.find f l); rewrite H
       end.
  all: first [exists true; reflexivity | exists false; reflexivity].
Qed.

(** Nothing fails; no image is listed and there is no workspace. *)
Lemma clean_stop_calls_witness :
  let w := Scenario.world_with Scenario.running_deployment in
  fst (stopContainer Scenario.happy (Scenario.running_deployment, w)) = Ok tt.
Proof.
  cbv zeta.
  apply (clean_stop_calls Scenario.happy Scenario.running_deployment
           (Scenario.world_with Scenario.running_deployment)
           "0123456789abcdef0123" eq_refl eq_refl).
  vm_compute. reflexivity.
Defined.
